(** * FashionBench scoring metrics: a shallow embedding of [scoring/metrics.py]

    The module under verification is the scoring library of the benchmark:
    [exact_match], [partial_match], [fashion_similarity],
    [list_overlap_score], [calculate_accuracy] and [weighted_score].

    Modelling choices.
    - A Python [str] is a [string] of ASCII code points; [lower], [strip],
      the regular expression [\w+] and the operator [in] are written out for
      that alphabet.
    - An argument that may be [None] is an [option]; the guard [if not x]
      is [truthy_str] (for a string) or [truthy_list] (for a list).
    - [set(...)] is a [gset string]; a dict is a [gmap string _]; the
      synonym table is an association list, because the source iterates over
      it in insertion order and breaks out of the loop.  A [gmap] does not
      keep the insertion order of a dict: the sums over a dict are taken in
      the order of [map_to_list], which does not change a sum of rationals.
    - Numbers go through the interface [PyNum], with two instances: exact
      rationals ([Q], on which the general statements are proved) and IEEE-754
      binary64 from [SpecFloat] (on which the worked examples are evaluated
      bit for bit).
    - A function result is an [option]: [None] stands for a raised
      [ZeroDivisionError], the only exception the arithmetic of the module
      can raise on well-typed arguments.

    The scoring code of the evaluation scripts under [evals/] is embedded
    after the metrics: the score of one example in each of the six loops, the
    keyword heuristics that stand in for a model, and the summary at the end
    of a loop.  There a dict with a fixed set of keys is a record, the two
    regular expressions of the detectors are written out as scanners, and a
    call that can raise [AttributeError] returns a [Py.outcome]. *)

From Stdlib Require Import QArith Qminmax Lqa Lia ZArith String Ascii List Bool.
From Stdlib Require Import SpecFloat.
From stdpp Require Import gmap strings list fin_maps fin_sets.

Open Scope string_scope.

(** ** Python string operations *)

Module PyStr.

(** [c.lower()] on one ASCII character. *)
Definition lower_ascii (c : ascii) : ascii :=
  let n := nat_of_ascii c in
  if (65 <=? n)%nat && (n <=? 90)%nat then ascii_of_nat (n + 32) else c.

(** [s.lower()] *)
Fixpoint lower (s : string) : string :=
  match s with
  | EmptyString => EmptyString
  | String c s' => String (lower_ascii c) (lower s')
  end.

(** [str.isspace] on one character: tab, line feed, vertical tab, form
    feed, carriage return, the four separators 0x1c-0x1f, and space. *)
Definition is_space (c : ascii) : bool :=
  let n := nat_of_ascii c in
  ((9 <=? n)%nat && (n <=? 13)%nat) || ((28 <=? n)%nat && (n <=? 32)%nat).

(** [s.lstrip()] *)
Fixpoint lstrip (s : string) : string :=
  match s with
  | EmptyString => EmptyString
  | String c s' => if is_space c then lstrip s' else s
  end.

(** [s.rstrip()]: a character is dropped when it is a space and
    everything after it has been dropped. *)
Fixpoint rstrip (s : string) : string :=
  match s with
  | EmptyString => EmptyString
  | String c s' =>
      match rstrip s' with
      | EmptyString => if is_space c then EmptyString else String c EmptyString
      | r => String c r
      end
  end.

(** [s.strip()] *)
Definition strip (s : string) : string := rstrip (lstrip s).

(** The class [\w] of the [re] module, on ASCII: letters, digits and the
    underscore. *)
Definition is_word (c : ascii) : bool :=
  let n := nat_of_ascii c in
  ((48 <=? n)%nat && (n <=? 57)%nat) || ((65 <=? n)%nat && (n <=? 90)%nat)
  || (n =? 95)%nat || ((97 <=? n)%nat && (n <=? 122)%nat).

(** The token being read is closed: it is a match when it is not empty. *)
Definition flush (cur : string) : list string :=
  match cur with
  | EmptyString => []
  | _ => [cur]
  end.

(** The scan of [re.findall(r'\w+', s)]: [cur] is the run of word
    characters read so far; a run ends at the first other character or at
    the end of the text (the match is greedy, matches do not overlap). *)
Fixpoint scan_words (cur : string) (s : string) : list string :=
  match s with
  | EmptyString => flush cur
  | String c s' =>
      if is_word c then scan_words (cur +:+ String c EmptyString) s'
      else flush cur ++ scan_words EmptyString s'
  end.

(** [re.findall(r'\w+', s)] *)
Definition findall_words (s : string) : list string := scan_words EmptyString s.

(** [needle in hay] for two strings: [needle] occurs at some position. *)
Fixpoint contains (needle hay : string) : bool :=
  String.prefix needle hay ||
  match hay with
  | EmptyString => false
  | String _ hay' => contains needle hay'
  end.

End PyStr.

(** ** Python numbers *)

(** The arithmetic the metrics use.  [py_lit] reads a numeric literal (or
    converts an [int]); [py_div] is true division and fails on a zero divisor
    ([None] stands for [ZeroDivisionError]); the comparisons are [==], [<]
    and [<=]. *)
Class PyNum (R : Type) := {
  py_lit : Q -> R;
  py_add : R -> R -> R;
  py_mul : R -> R -> R;
  py_div : R -> R -> option R;
  py_eqb : R -> R -> bool;
  py_ltb : R -> R -> bool;
  py_leb : R -> R -> bool;
}.

(** Exact rational arithmetic. *)
#[export] Instance Q_num : PyNum Q := {
  py_lit q := q;
  py_add := Qplus;
  py_mul := Qmult;
  py_div a b := if Qeq_bool b 0 then None else Some (a / b)%Q;
  py_eqb := Qeq_bool;
  py_ltb a b := negb (Qle_bool b a);
  py_leb := Qle_bool;
}.

(** IEEE-754 binary64, the [float] of CPython: 53 bits of precision,
    [emax = 1024], round to nearest even.  An integer below [2^53] converts
    exactly; a decimal literal [n/d] is the correctly rounded quotient. *)
Definition b64_of_Z (z : Z) : spec_float := binary_normalize 53 1024 z 0 false.

#[export] Instance b64_num : PyNum spec_float := {
  py_lit q := SFdiv 53 1024 (b64_of_Z (Qnum q)) (b64_of_Z (Zpos (Qden q)));
  py_add := SFadd 53 1024;
  py_mul := SFmul 53 1024;
  py_div a b :=
    if SFeqb b (b64_of_Z 0) then None else Some (SFdiv 53 1024 a b);
  py_eqb := SFeqb;
  py_ltb := SFltb;
  py_leb := SFleb;
}.

(** ** The metrics *)

(** The result of [calculate_accuracy]: a dict with these four keys. *)
Record accuracy_report (R : Type) := {
  total : nat;
  passed : nat;
  accuracy : R;
  avg_score : R;
}.
Arguments total {R} _.
Arguments passed {R} _.
Arguments accuracy {R} _.
Arguments avg_score {R} _.

(** The literal [fashion_synonyms], in source order. *)
Definition fashion_synonyms : list (string * list string) :=
  [ ("luxury", ["high-end"; "premium"; "upscale"; "designer"]);
    ("casual", ["relaxed"; "laid-back"; "comfortable"; "easy"]);
    ("elegant", ["sophisticated"; "refined"; "polished"; "chic"]);
    ("trendy", ["fashionable"; "stylish"; "on-trend"; "contemporary"]);
    ("vintage", ["retro"; "classic"; "throwback"; "timeless"]);
    ("minimalist", ["simple"; "clean"; "understated"; "minimal"]);
    ("bohemian", ["boho"; "hippie"; "free-spirited"; "eclectic"]);
    ("streetwear", ["urban"; "street-style"; "casual-cool"]);
    ("athleisure", ["sporty"; "athletic"; "activewear"]);
    ("sustainable", ["eco-friendly"; "ethical"; "conscious"; "green"]) ].

(** [x if x else None]: the value of a string argument that passes the
    guard [if not x], that is neither [None] nor empty. *)
Definition truthy_str (x : option string) : option string :=
  match x with
  | Some (String c s) => Some (String c s)
  | _ => None
  end.

(** The same for a list argument. *)
Definition truthy_list (x : option (list string)) : option (list string) :=
  match x with
  | Some (i :: l) => Some (i :: l)
  | _ => None
  end.

(** [exp_word == key or exp_word in synonyms] *)
Definition in_group (exp_word : string) (group : string * list string) : bool :=
  String.eqb exp_word (fst group) || existsb (String.eqb exp_word) (snd group).

(** [any(syn in predicted_lower for syn in [key] + synonyms)] *)
Definition group_in_text (group : string * list string) (predicted_lower : string) : bool :=
  existsb (fun syn => PyStr.contains syn predicted_lower) (fst group :: snd group).

(** The inner loop of [fashion_similarity] over the items of the table:
    [true] when the loop reaches [synonym_matches += 1; break]. *)
Fixpoint synonym_hit (groups : list (string * list string))
    (exp_word predicted_lower : string) : bool :=
  match groups with
  | [] => false
  | group :: rest =>
      if in_group exp_word group then
        if group_in_text group predicted_lower then true
        else synonym_hit rest exp_word predicted_lower
      else synonym_hit rest exp_word predicted_lower
  end.

(** One turn of the outer loop: [continue] on a directly matched word,
    else the inner loop. *)
Definition synonym_step (predicted_words : gset string) (predicted_lower : string)
    (synonym_matches : nat) (exp_word : string) : nat :=
  if bool_decide (exp_word ∈ predicted_words) then synonym_matches
  else if synonym_hit fashion_synonyms exp_word predicted_lower
       then S synonym_matches else synonym_matches.

Section Metrics.
Context {R : Type} `{PyNum R}.

(** An [int] used in arithmetic. *)
Definition py_int (n : nat) : R := py_lit (inject_Z (Z.of_nat n)).

(** [min(a, b)]: [b] only when [b < a]. *)
Definition py_min (a b : R) : R := if py_ltb b a then b else a.

(** [sum(xs)]: a left fold from the integer 0. *)
Definition py_sum (xs : list R) : R := fold_left py_add xs (py_int 0).

(** [len(a) / len(b) if b else 0.0] *)
Definition ratio_or_zero (a b : nat) : option R :=
  if (0 <? b)%nat then py_div (py_int a) (py_int b) else Some (py_lit 0).

(** [def exact_match(predicted, expected)] *)
Definition exact_match (predicted expected : option string) : option R :=
  match truthy_str predicted, truthy_str expected with
  | Some predicted, Some expected =>
      let predicted_clean := PyStr.lower (PyStr.strip predicted) in
      let expected_clean := PyStr.lower (PyStr.strip expected) in
      Some (if String.eqb predicted_clean expected_clean
            then py_lit 1 else py_lit 0)
  | _, _ => Some (py_lit 0)
  end.

(** [def partial_match(predicted, expected, threshold=0.5)] *)
Definition partial_match (predicted expected : option string) (threshold : R)
    : option R :=
  match truthy_str predicted, truthy_str expected with
  | Some predicted, Some expected =>
      let predicted_words : gset string :=
        list_to_set (PyStr.findall_words (PyStr.lower predicted)) in
      let expected_words : gset string :=
        list_to_set (PyStr.findall_words (PyStr.lower expected)) in
      if (size expected_words =? 0)%nat then Some (py_lit 0)
      else
        let intersection := predicted_words ∩ expected_words in
        let union := predicted_words ∪ expected_words in
        jaccard ← ratio_or_zero (size intersection) (size union);
        recall ← py_div (py_int (size intersection)) (py_int (size expected_words));
        py_div (py_add jaccard recall) (py_int 2)
  | _, _ => Some (py_lit 0)
  end.

(** [def fashion_similarity(predicted, expected)]; the loop over
    [expected_words] is the fold of [synonym_step] over the elements of the
    set. *)
Definition fashion_similarity (predicted expected : option string) : option R :=
  match truthy_str predicted, truthy_str expected with
  | Some predicted, Some expected =>
      let predicted_lower := PyStr.lower predicted in
      let expected_lower := PyStr.lower expected in
      if String.eqb predicted_lower expected_lower then Some (py_lit 1)
      else if PyStr.contains expected_lower predicted_lower
              || PyStr.contains predicted_lower expected_lower
      then Some (py_lit (9 # 10))
      else
        let predicted_words : gset string :=
          list_to_set (PyStr.findall_words predicted_lower) in
        let expected_words : gset string :=
          list_to_set (PyStr.findall_words expected_lower) in
        let direct_overlap := predicted_words ∩ expected_words in
        base_score ← ratio_or_zero (size direct_overlap) (size expected_words);
        let expected_word_count := size expected_words in
        let synonym_matches :=
          fold_left (synonym_step predicted_words predicted_lower)
                    (elements expected_words) 0%nat in
        synonym_score ← ratio_or_zero synonym_matches expected_word_count;
        let final_score :=
          py_add (py_mul base_score (py_lit (7 # 10)))
                 (py_mul synonym_score (py_lit (3 # 10))) in
        Some (py_min final_score (py_lit 1))
  | _, _ => Some (py_lit 0)
  end.

(** [def list_overlap_score(predicted, expected)] *)
Definition list_overlap_score (predicted expected : option (list string))
    : option R :=
  match truthy_list expected with
  | None => Some (py_lit 0)
  | Some expected =>
      match truthy_list predicted with
      | None => Some (py_lit 0)
      | Some predicted =>
          let norm item := PyStr.strip (PyStr.lower item) in
          let predicted_set : gset string := list_to_set (map norm predicted) in
          let expected_set : gset string := list_to_set (map norm expected) in
          let intersection := predicted_set ∩ expected_set in
          precision ← ratio_or_zero (size intersection) (size predicted_set);
          recall ← ratio_or_zero (size intersection) (size expected_set);
          if py_eqb (py_add precision recall) (py_int 0) then Some (py_lit 0)
          else py_div (py_mul (py_int 2) (py_mul precision recall))
                      (py_add precision recall)
      end
  end.

(** [r.get("score", 0)] *)
Definition get_score (r : gmap string R) : R := default (py_int 0) (r !! "score").

(** [def calculate_accuracy(results, threshold=0.7)]; a result record is
    modelled by its numeric fields. *)
Definition calculate_accuracy (results : list (gmap string R)) (threshold : R)
    : option (accuracy_report R) :=
  match results with
  | [] => Some {| total := 0; passed := 0;
                  accuracy := py_lit 0; avg_score := py_lit 0 |}
  | _ =>
      let total := length results in
      let passed :=
        length (filter (fun r => py_leb threshold (get_score r) = true) results) in
      avg_score ← py_div (py_sum (map get_score results)) (py_int total);
      accuracy ← py_div (py_int passed) (py_int total);
      Some {| total := total; passed := passed;
              accuracy := accuracy; avg_score := avg_score |}
  end.

(** [def weighted_score(scores, weights=None)] *)
Definition weighted_score (scores : gmap string R) (weights : option (gmap string R))
    : option R :=
  if (size scores =? 0)%nat then Some (py_lit 0)
  else
    let weights : gmap string R :=
      match weights with
      | None => (fun _ => py_lit 1) <$> scores
      | Some weights => weights
      end in
    let total_weight := py_sum (snd <$> map_to_list weights) in
    if py_eqb total_weight (py_int 0) then Some (py_lit 0)
    else
      let weighted_sum :=
        py_sum ((fun kv => py_mul (snd kv) (default (py_lit 1) (weights !! fst kv)))
                  <$> map_to_list scores) in
      py_div weighted_sum total_weight.

End Metrics.

(** The default values of the optional parameters. *)
Definition partial_match_default_threshold {R} `{PyNum R} : R := py_lit (1 # 2).
Definition calculate_accuracy_default_threshold {R} `{PyNum R} : R := py_lit (7 # 10).

(** * The evaluation scripts *)

(** ** More Python string operations *)

Module PyText.

(** [c.upper()] on one ASCII character. *)
Definition upper_ascii (c : ascii) : ascii :=
  let n := nat_of_ascii c in
  if (97 <=? n)%nat && (n <=? 122)%nat then ascii_of_nat (n - 32) else c.

(** [s.upper()] *)
Fixpoint upper (s : string) : string :=
  match s with
  | EmptyString => EmptyString
  | String c s' => String (upper_ascii c) (upper s')
  end.


(** The scan of [s.split()]: [cur] is the run of non-space characters read
    so far; empty runs are dropped. *)
Fixpoint scan_fields (cur : string) (s : string) : list string :=
  match s with
  | EmptyString => PyStr.flush cur
  | String c s' =>
      if PyStr.is_space c then PyStr.flush cur ++ scan_fields EmptyString s'
      else scan_fields (cur +:+ String c EmptyString) s'
  end.

(** [s.split()] *)
Definition split (s : string) : list string := scan_fields EmptyString s.

(** [any(word in text for word in words)] *)
Definition any_in (words : list string) (text : string) : bool :=
  existsb (fun word => PyStr.contains word text) words.

End PyText.

(** ** The summary of an evaluation loop

    The six [evaluate_*] functions end their loop over the examples with the
    same three lines: [total_score] has been accumulated from the integer 0,
    [avg_score = total_score / len(examples) if examples else 0] and
    [passed = sum(1 for r in results if r["score"] >= threshold)], with the
    threshold 0.7 (0.6 in [evaluate_fashion_writing]). *)

Module Harness.
Section Harness.
Context {R : Type} `{PyNum R}.

(** [total_score = 0], then [total_score += score] for each example. *)
Definition total_score (scores : list R) : R := fold_left py_add scores (py_int 0).

(** [total_score / len(examples) if examples else 0] *)
Definition avg_score (scores : list R) : option R :=
  match scores with
  | [] => Some (py_int 0)
  | _ => py_div (total_score scores) (py_int (length scores))
  end.

(** [sum(1 for r in results if r["score"] >= threshold)], on the scores the
    loop stored in the records. *)
Definition passed (threshold : R) (scores : list R) : nat :=
  length (filter (fun score => py_leb threshold score = true) scores).

End Harness.
End Harness.

(** ** [evals/style_eval.py] *)

Module StyleEval.

(** [def classify_style(description)] *)
Definition classify_style (description : string) : string :=
  let description_lower := PyStr.lower description in
  if PyText.any_in ["blazer"; "trousers"; "professional"; "tote"; "corporate"]
                   description_lower
  then "Corporate/Professional"
  else if PyText.any_in ["leather jacket"; "distressed"; "combat boots"; "grunge";
                         "band t-shirt"] description_lower
  then "Grunge/Rock"
  else if PyText.any_in ["floral"; "maxi dress"; "basket bag"; "bohemian"; "woven"]
                        description_lower
  then "Bohemian/Boho"
  else if PyText.any_in ["hoodie"; "joggers"; "sneakers"; "athleisure"; "sporty"]
                        description_lower
  then "Athleisure/Sporty"
  else if PyText.any_in ["cashmere"; "quiet luxury"; "minimalist"; "tailored wool"]
                        description_lower
  then "Quiet Luxury/Minimalist"
  else if PyText.any_in ["streetwear"; "baggy jeans"; "nike"; "puffer"; "urban"]
                        description_lower
  then "Streetwear/Urban"
  else if PyText.any_in ["coquette"; "pastel"; "ribbon"; "pearl"; "feminine"]
                        description_lower
  then "Coquette/Feminine"
  else if PyText.any_in ["hypebeast"; "cargo pants"; "bucket hat"; "chains"]
                        description_lower
  then "Hypebeast/Streetwear"
  else if PyText.any_in ["linen"; "espadrilles"; "coastal"; "resort"; "straw hat"]
                        description_lower
  then "Coastal/Resort"
  else if PyText.any_in ["tweed"; "classic"; "timeless"; "kitten heels"]
                        description_lower
  then "Classic/Timeless"
  else "Contemporary/Mixed".

(** [def simulate_model_response(example, model_name)]: the example is read
    through [example.get("description", "")]. *)
Definition simulate_model_response (example : gmap string string) (model_name : string)
    : string :=
  classify_style (default "" (example !! "description")).

Section Score.
Context {R : Type} `{PyNum R}.

(** [max(a, b)]: [b] only when [a < b]. *)
Definition py_max (a b : R) : R := if py_ltb a b then b else a.

(** The score of one example in the loop of [evaluate_style_classification]:
    the exact match, with [fashion_similarity] as a fallback below 1.0. *)
Definition score (model_output expected : string) : option R :=
  exact_score ← exact_match (Some model_output) (Some expected);
  if py_ltb exact_score (py_lit 1) then
    similarity_score ← fashion_similarity (Some model_output) (Some expected);
    Some (py_max exact_score similarity_score)
  else Some exact_score.

End Score.
End StyleEval.

(** ** [evals/trend_detection_eval.py] *)

Module TrendEval.

(** [def simulate_model_response(example, model_name)]; [question] is read
    and not used. *)
Definition simulate_model_response (example : gmap string string) (model_name : string)
    : string :=
  let context := default "" (example !! "context") in
  let question := default "" (example !! "question") in
  let has word := PyStr.contains word (PyStr.lower context) in
  if has "barbiecore" || has "pink"
  then "Barbiecore and Y2K pink aesthetic revival"
  else if has "blazer" && has "structured"
  then "Oversized tailoring, power dressing, structured silhouettes"
  else if has "loafer" || has "mini bag"
  then "Chunky loafers, mini bags, long coats"
  else if has "dopamine"
  then "Dopamine dressing and maximalist color trend"
  else if has "quiet luxury"
  then "Quiet luxury and stealth wealth aesthetic"
  else if has "sustainable"
  then "90s minimalism, sustainability, and gender-neutral fashion"
  else if has "balletcore"
  then "Balletcore, clean girl aesthetic, cozy cardio"
  else if has "streetwear"
  then "Luxury streetwear fusion, sneaker culture"
  else "Contemporary fashion trend".

Section Score.
Context {R : Type} `{PyNum R}.

(** The score of one example in the loop of [evaluate_trend_detection]: the
    mean of [partial_match] (default threshold) and [fashion_similarity]. *)
Definition final_score (model_output expected : string) : option R :=
  partial_score ← partial_match (Some model_output) (Some expected)
                    partial_match_default_threshold;
  similarity_score ← fashion_similarity (Some model_output) (Some expected);
  py_div (py_add partial_score similarity_score) (py_int 2).

End Score.
End TrendEval.

(** ** [evals/writing_eval.py] *)

Module WritingEval.

(** [def rewrite_caption(original, context, style)]; the last branch is the
    f-string of the source. *)
Definition rewrite_caption (original context style : string) : string :=
  let context_lower := PyStr.lower context in
  let has word := PyStr.contains word context_lower in
  if has "blazer" && has "jeans"
  then "Elevated casual perfection: tailored blazer meets classic denim. Sophisticated yet comfortable."
  else if has "floral" && has "midi"
  then "Spring blooms in this dreamy floral midi. Effortless elegance with garden party charm."
  else if has "sneakers" && has "white"
  then "Statement sneakers that steal the show. Clean, bold, endlessly wearable."
  else if has "little black dress" || has "lbd"
  then "That LBD energy: timeless, confident, unforgettable. When the dress speaks volumes."
  else if has "sweater" && has "leggings"
  then "Cozy season done right: wrapped in comfort without sacrificing style."
  else if has "pencil skirt" && has "blouse"
  then "Boardroom ready: polished power dressing meets feminine sophistication."
  else if has "vintage" || has "thrifted"
  then "Sustainable style wins: this vintage treasure proves pre-loved is best. Thrifted, not bought."
  else if has "linen" && has "summer"
  then "Sun-soaked sophistication: breezy linens for endless summer days. Vacation mode on."
  else if has "coat" && has "bold"
  then "That compliment magnet: when your coat steals the spotlight. Bold moves, big impact."
  else if has "loungewear"
  then "Elevated lounging: staying in never looked this chic. Cozy, coordinated, completely stylish."
  else "Transformed from '" +:+ original +:+ "' into elevated fashion content with "
       +:+ style +:+ " vibes.".

(** [def simulate_model_response(example, model_name)] *)
Definition simulate_model_response (example : gmap string string) (model_name : string)
    : string :=
  let original := default "" (example !! "original") in
  let context := default "" (example !! "context") in
  let style := default "professional" (example !! "style") in
  rewrite_caption original context style.


Section Score.
Context {R : Type} `{PyNum R}.


End Score.
End WritingEval.

(** ** [evals/hashtag_eval.py] *)

Module HashtagEval.

(** One entry of the knowledge base: a dict with three keys. *)
Definition entry (meaning category purpose : string) : gmap string string :=
  list_to_map [("meaning", meaning); ("category", category); ("purpose", purpose)].

(** The literal [hashtag_db] of [understand_hashtag]. *)
Definition hashtag_db : gmap string (gmap string string) :=
  list_to_map
    [ ("#ootd", entry "Outfit Of The Day" "outfit_sharing" "showcase daily outfit choice");
      ("#grwm", entry "Get Ready With Me" "lifestyle_content" "document preparation routine");
      ("#tryonhaul", entry "Try On Haul" "shopping_content" "show purchased items being worn");
      ("#iykyk", entry "If You Know You Know" "insider_reference"
                       "subtle flex or insider knowledge");
      ("#dupealert", entry "Dupe Alert" "budget_fashion" "share affordable alternative");
      ("#ootw", entry "Outfit Of The Week" "outfit_sharing" "showcase weekly outfit choices");
      ("#ltk", entry "LikeToKnowIt" "affiliate_marketing" "monetize through affiliate links");
      ("#shein", entry "SHEIN brand" "brand_tag" "tag fast fashion retailer");
      ("#thriftflip", entry "Thrift Flip" "sustainable_fashion" "show thrifted item upcycle");
      ("#wiwtd", entry "What I Wore Today" "outfit_sharing" "share outfit for specific day") ].

(** [def understand_hashtag(hashtag, context)]: [hashtag_db.get] with the
    answer for an unknown hashtag as default. *)
Definition understand_hashtag (hashtag context : string) : gmap string string :=
  let hashtag_lower := PyStr.lower hashtag in
  default (entry "Unknown hashtag" "general" "social media engagement")
          (hashtag_db !! hashtag_lower).

(** [def simulate_model_response(example, model_name)] *)
Definition simulate_model_response (example : gmap string string) (model_name : string)
    : gmap string string :=
  let hashtag := default "" (example !! "hashtag") in
  let context := default "" (example !! "context") in
  understand_hashtag hashtag context.

Section Score.
Context {R : Type} `{PyNum R}.

(** The check of the fields [meaning] and [category]: full credit on equal
    lowercased texts, [partial] when one occurs inside the other; nothing
    when the key is missing on either side. *)
Definition check_field (key : string) (partial : Q)
    (predicted expected : gmap string string) (score : R) : R :=
  match expected !! key, predicted !! key with
  | Some e, Some p =>
      if String.eqb (PyStr.lower e) (PyStr.lower p) then py_add score (py_lit 1)
      else if PyStr.contains (PyStr.lower e) (PyStr.lower p)
              || PyStr.contains (PyStr.lower p) (PyStr.lower e)
      then py_add score (py_lit partial)
      else score
  | _, _ => score
  end.

(** The check of the field [purpose], with the fallback on shared words. *)
Definition check_purpose (predicted expected : gmap string string) (score : R) : R :=
  match expected !! "purpose", predicted !! "purpose" with
  | Some e, Some p =>
      let expected_purpose := PyStr.lower e in
      let predicted_purpose := PyStr.lower p in
      if String.eqb expected_purpose predicted_purpose then py_add score (py_lit 1)
      else if PyStr.contains expected_purpose predicted_purpose
              || PyStr.contains predicted_purpose expected_purpose
      then py_add score (py_lit (7 # 10))
      else
        let expected_words : gset string := list_to_set (PyText.split expected_purpose) in
        let predicted_words : gset string := list_to_set (PyText.split predicted_purpose) in
        let overlap := size (expected_words ∩ predicted_words) in
        if (0 <? overlap)%nat then py_add score (py_lit (4 # 10)) else score
  | _, _ => score
  end.

(** [def calculate_hashtag_score(predicted, expected)] *)
Definition calculate_hashtag_score (predicted expected : gmap string string) : option R :=
  if (size expected =? 0)%nat || (size predicted =? 0)%nat then Some (py_lit 0)
  else
    let score := py_lit 0 in
    let total_components := 3%nat in
    let score := check_field "meaning" (7 # 10) predicted expected score in
    let score := check_field "category" (5 # 10) predicted expected score in
    let score := check_purpose predicted expected score in
    py_div score (py_int total_components).

End Score.
End HashtagEval.

(** ** Exceptions *)

Module Py.

(** The exceptions the evaluation scripts can raise on the values modelled
    here. *)
Inductive exception : Type :=
| AttributeError
| ZeroDivisionError.

(** The outcome of a call: a returned value or a raised exception. *)
Inductive outcome (A : Type) : Type :=
| Return (a : A)
| Raise (e : exception).

Arguments Return {A} a.
Arguments Raise {A} e.

Definition bind {A B : Type} (m : outcome A) (f : A -> outcome B) : outcome B :=
  match m with
  | Return a => f a
  | Raise e => Raise e
  end.

(** A true division: [None] is [ZeroDivisionError]. *)
Definition of_div {A : Type} (o : option A) : outcome A :=
  match o with
  | Some a => Return a
  | None => Raise ZeroDivisionError
  end.

(** The value of a call that returned. *)
Definition value {A : Type} (m : outcome A) : option A :=
  match m with
  | Return a => Some a
  | Raise _ => None
  end.

End Py.


(** ** The two regular expressions of the detectors *)

Module PyRe.

(** The class [\d] of the [re] module, on ASCII. *)
Definition is_digit (c : ascii) : bool :=
  let n := nat_of_ascii c in (48 <=? n)%nat && (n <=? 57)%nat.

(** The longest run of characters of a class at the start of a text, and
    the rest of the text: a greedy [+] or [*]. *)
Fixpoint span (p : ascii -> bool) (s : string) : string * string :=
  match s with
  | EmptyString => (EmptyString, EmptyString)
  | String c s' =>
      if p c then let '(run, rest) := span p s' in (String c run, rest)
      else (EmptyString, s)
  end.

(** [s[n:]] *)
Fixpoint drop (n : nat) (s : string) : string :=
  match n, s with
  | O, _ => s
  | S _, EmptyString => EmptyString
  | S k, String _ s' => drop k s'
  end.

(** A match of [code\s+(\w+)] with the flag IGNORECASE at the start of
    [s]: the group and the length of the match.  The classes [\s] and
    [\w] are disjoint, so the greedy runs are the only way to match. *)
Definition match_code (s : string) : option (string * nat) :=
  if String.prefix "code" (PyStr.lower s) then
    let '(spaces, rest) := span PyStr.is_space (drop 4 s) in
    let '(word, _) := span PyStr.is_word rest in
    match spaces, word with
    | String _ _, String _ _ => Some (word, 4 + String.length spaces + String.length word)
    | _, _ => None
    end
  else None.

(** A match of [(\d+)%] at the start of [s]. *)
Definition match_percent (s : string) : option (string * nat) :=
  let '(digits, rest) := span is_digit s in
  match digits, rest with
  | String _ _, String "%" _ => Some (digits, String.length digits + 1)
  | _, _ => None
  end.

(** [re.findall] for a pattern with one group: the text is scanned from
    left to right, a match gives its group and the scan goes on after the
    match ([skip] counts the characters of the match still to pass). *)
Fixpoint findall_from (m : string -> option (string * nat)) (skip : nat) (s : string)
    : list string :=
  match s with
  | EmptyString => []
  | String _ s' =>
      match skip with
      | S k => findall_from m k s'
      | O =>
          match m s with
          | Some (group, len) => group :: findall_from m (len - 1) s'
          | None => findall_from m 0 s'
          end
      end
  end.

(** [re.findall(r'code\s+(\w+)', text, re.IGNORECASE)] *)
Definition findall_code (text : string) : list string := findall_from match_code 0 text.

(** [re.findall(r'(\d+)%', text)] *)
Definition findall_percent (text : string) : list string :=
  findall_from match_percent 0 text.

End PyRe.

(** ** [evals/affiliate_eval.py] *)

Module AffiliateEval.

(** The dict built by [detect_affiliate_content].  The key [has_affiliate]
    is always present; the other keys are optional.  The key [type] can be
    present with the value [None] (the assignment [result["type"] =
    result.get("type")]), hence the two options. *)
Record detection : Type := {
  has_affiliate : bool;
  platform : option string;
  type_ : option (option string);
  code : option string;
  discount : option string;
  disclosures : option (list string);
  indicators : option (list string);
}.

(** The literal [sponsored_keywords]. *)
Definition sponsored_keywords : list string :=
  ["#ad"; "#gifted"; "#sponsored"; "paid partnership"; "partnering"].

(** [result.get("type")] *)
Definition get_type (type_ : option (option string)) : option string :=
  match type_ with
  | Some v => v
  | None => None
  end.

(** [def detect_affiliate_content(text)]: the assignments to [result] in
    the order of the source. *)
Definition detect_affiliate_content (text : string) : detection :=
  let has_affiliate := false in
  let platform : option string := None in
  let type_ : option (option string) := None in
  let text_lower := PyStr.lower text in
  (* Detect affiliate platforms *)
  let ltk := PyStr.contains "ltk" text_lower || PyStr.contains "liketoknow" text_lower in
  let has_affiliate := if ltk then true else has_affiliate in
  let platform :=
    if ltk then
      if PyStr.contains "shop.ltk" text_lower then Some "ShopLTK" else Some "LTK"
    else platform in
  (* Detect Amazon affiliate *)
  let amazon :=
    PyStr.contains "amazon" text_lower
    && (PyStr.contains "storefront" text_lower || PyStr.contains "finds" text_lower) in
  let has_affiliate := if amazon then true else has_affiliate in
  let platform := if amazon then Some "Amazon" else platform in
  let type_ := if amazon then Some (Some "affiliate_storefront") else type_ in
  (* Detect discount codes *)
  let codes := PyRe.findall_code text in
  let discounts := PyRe.findall_percent text in
  let has_affiliate := match codes with [] => has_affiliate | _ :: _ => true end in
  let type_ :=
    match codes with
    | [] => type_
    | _ :: _ =>
        match get_type type_ with
        | None | Some EmptyString => Some (Some "discount_code")
        | Some t => Some (Some t)
        end
    end in
  let code := match codes with [] => None | c :: _ => Some c end in
  let discount :=
    match codes, discounts with
    | _ :: _, d :: _ => Some (d +:+ "%")
    | _, _ => None
    end in
  (* Detect sponsored content *)
  let found_disclosures :=
    filter (fun kw => PyStr.contains kw text_lower = true) sponsored_keywords in
  let has_affiliate := match found_disclosures with [] => has_affiliate | _ :: _ => true end in
  let type_ := match found_disclosures with [] => type_ | _ :: _ => Some (Some "sponsored") end in
  let disclosures :=
    match found_disclosures with [] => None | _ :: _ => Some found_disclosures end in
  (* Detect brand partnerships *)
  let type_ :=
    if PyStr.contains "partnering" text_lower || PyStr.contains "partnership" text_lower
    then Some (if has_affiliate then Some "brand_partnership" else get_type type_)
    else type_ in
  (* Check for organic content indicators *)
  let type_ :=
    if negb has_affiliate
       && (PyStr.contains "thrifted" text_lower || PyStr.contains "no links" text_lower
           || PyStr.contains "just sharing" text_lower)
    then Some (Some "organic") else type_ in
  (* Detect link mentions *)
  let link :=
    PyStr.contains "link" text_lower || PyStr.contains "swipe up" text_lower
    || PyStr.contains "tap to shop" text_lower in
  let has_affiliate := if link then true else has_affiliate in
  let indicators :=
    if link then
      Some (if PyStr.contains "link" text_lower then ["link in bio"] else [])
    else None in
  {| has_affiliate := has_affiliate; platform := platform; type_ := type_;
     code := code; discount := discount; disclosures := disclosures;
     indicators := indicators |}.

(** The [expected] dict of an example, on the six keys the score reads; the
    values have the types of the dataset (a boolean, strings, a list of
    strings).  A dict with none of the six keys scores 0.0 whether it is
    empty (first guard) or not ([components] stays 0). *)
Record expectation : Type := {
  e_has_affiliate : option bool;
  e_platform : option string;
  e_type : option string;
  e_code : option string;
  e_discount : option string;
  e_disclosures : option (list string);
}.

(** None of the six keys is present. *)
Definition no_keys (expected : expectation) : bool :=
  match e_has_affiliate expected, e_platform expected, e_type expected,
        e_code expected, e_discount expected, e_disclosures expected with
  | None, None, None, None, None, None => true
  | _, _, _, _, _, _ => false
  end.

Section Score.
Context {R : Type} `{PyNum R}.

(** The check of [has_affiliate]: two components. *)
Definition check_has_affiliate (predicted : detection) (expected : expectation)
    (acc : R * Q) : R * Q :=
  let '(score, components) := acc in
  match e_has_affiliate expected with
  | Some b =>
      let components := (components + 2)%Q in
      if Bool.eqb (has_affiliate predicted) b
      then (py_add score (py_lit 2), components) else (score, components)
  | None => acc
  end.

(** The check of [platform]. *)
Definition check_platform (predicted : detection) (expected : expectation)
    (acc : R * Q) : R * Q :=
  let '(score, components) := acc in
  match e_platform expected with
  | Some e =>
      let components := (components + 1)%Q in
      if String.eqb (PyStr.lower (default "" (platform predicted))) (PyStr.lower e)
      then (py_add score (py_lit 1), components) else (score, components)
  | None => acc
  end.

(** The check of [type]: [predicted.get("type", "")] is [None] when the
    key is present with that value, and [None.lower()] raises. *)
Definition check_type (predicted : detection) (expected : expectation)
    (acc : R * Q) : Py.outcome (R * Q) :=
  let '(score, components) := acc in
  match e_type expected with
  | Some e =>
      let components := (components + 1)%Q in
      match type_ predicted with
      | Some None => Py.Raise Py.AttributeError
      | got =>
          let p := default "" (get_type got) in
          if String.eqb (PyStr.lower p) (PyStr.lower e)
          then Py.Return (py_add score (py_lit 1), components)
          else if PyStr.contains e p
          then Py.Return (py_add score (py_lit (5 # 10)), components)
          else Py.Return (score, components)
      end
  | None => Py.Return acc
  end.

(** The check of [code]. *)
Definition check_code (predicted : detection) (expected : expectation)
    (acc : R * Q) : R * Q :=
  let '(score, components) := acc in
  match e_code expected with
  | Some e =>
      let components := (components + 1)%Q in
      if String.eqb (PyText.upper (default "" (code predicted))) (PyText.upper e)
      then (py_add score (py_lit 1), components) else (score, components)
  | None => acc
  end.

(** The check of [discount]: half a component. *)
Definition check_discount (predicted : detection) (expected : expectation)
    (acc : R * Q) : R * Q :=
  let '(score, components) := acc in
  match e_discount expected with
  | Some e =>
      let components := (components + (5 # 10))%Q in
      match discount predicted with
      | Some d =>
          if String.eqb d e
          then (py_add score (py_lit (5 # 10)), components) else (score, components)
      | None => (score, components)
      end
  | None => acc
  end.

(** The check of [disclosures]: the share of the expected disclosures that
    were found. *)
Definition check_disclosures (predicted : detection) (expected : expectation)
    (acc : R * Q) : Py.outcome (R * Q) :=
  let '(score, components) := acc in
  match e_disclosures expected with
  | Some e =>
      let components := (components + 1)%Q in
      let expected_disclosures : gset string := list_to_set (map PyStr.lower e) in
      let predicted_disclosures : gset string :=
        list_to_set (map PyStr.lower (default [] (disclosures predicted))) in
      let overlap := size (expected_disclosures ∩ predicted_disclosures) in
      if (0 <? overlap)%nat then
        Py.bind (Py.of_div (py_div (py_int overlap) (py_int (size expected_disclosures))))
                (fun share => Py.Return (py_add score share, components))
      else Py.Return (score, components)
  | None => Py.Return acc
  end.

(** [def calculate_affiliate_score(predicted, expected)].  [components] is
    an [int] until [0.5] is added to it; its values are multiples of one
    half below 7, exact in either type, and kept as a rational. *)
Definition calculate_affiliate_score (predicted : detection) (expected : expectation)
    : Py.outcome R :=
  if no_keys expected then Py.Return (py_lit 0)
  else
    let acc := (py_lit 0, 0%Q) in
    let acc := check_has_affiliate predicted expected acc in
    let acc := check_platform predicted expected acc in
    Py.bind (check_type predicted expected acc) (fun acc =>
    let acc := check_code predicted expected acc in
    let acc := check_discount predicted expected acc in
    Py.bind (check_disclosures predicted expected acc) (fun acc =>
    let '(score, components) := acc in
    if Qlt_le_dec 0 components
    then Py.of_div (py_div score (py_lit components))
    else Py.Return (py_lit 0))).

End Score.
End AffiliateEval.

(** ** [evals/product_extraction_eval.py] *)

Module ProductEval.

(** A value of the [predicted] dict: [extract_key_info] stores strings and
    the boolean [True]. *)
Inductive predicted_value : Type :=
| PStr (s : string)
| PBool (b : bool).

(** A value of the [expected] dict, as read from JSON: a boolean, a string,
    a number, or anything else ([null], a list, an object). *)
Inductive expected_value : Type :=
| EBool (b : bool)
| EStr (s : string)
| ENum (q : Q)
| EOther.

(** [predicted[key] == expected_value] when [expected_value] is a boolean:
    a string is never equal to a boolean. *)
Definition eq_bool (p : predicted_value) (b : bool) : bool :=
  match p with
  | PBool b' => Bool.eqb b' b
  | PStr _ => false
  end.

(** [predicted[key] == expected_value] when [expected_value] is neither a
    boolean nor a string: [True == 1] and [False == 0] hold in Python, and
    nothing else does for a string or a boolean on the left. *)
Definition eq_other (p : predicted_value) (e : expected_value) : bool :=
  match p, e with
  | PBool b, ENum q => Qeq_bool q (if b then 1 else 0)
  | _, _ => false
  end.

Section Score.
Context {R : Type} `{PyNum R}.

(** One turn of the loop over [expected.items()].  [predicted[key].lower()]
    raises [AttributeError] on a boolean. *)
Definition check_field (predicted : gmap string predicted_value)
    (correct_fields : R) (item : string * expected_value) : Py.outcome R :=
  let '(key, expected_value) := item in
  match predicted !! key with
  | Some p =>
      match expected_value with
      | EBool b =>
          Py.Return (if eq_bool p b then py_add correct_fields (py_lit 1)
                     else correct_fields)
      | EStr e =>
          match p with
          | PBool _ => Py.Raise Py.AttributeError
          | PStr s =>
              if String.eqb (PyStr.lower s) (PyStr.lower e)
              then Py.Return (py_add correct_fields (py_lit 1))
              else if PyStr.contains (PyStr.lower e) (PyStr.lower s)
                      || PyStr.contains (PyStr.lower s) (PyStr.lower e)
              then Py.Return (py_add correct_fields (py_lit (7 # 10)))
              else Py.Return correct_fields
          end
      | _ =>
          Py.Return (if eq_other p expected_value
                     then py_add correct_fields (py_lit 1) else correct_fields)
      end
  | None => Py.Return correct_fields
  end.

(** The loop over [expected.items()], in the order of the dict. *)
Fixpoint check_fields (predicted : gmap string predicted_value)
    (correct_fields : R) (items : list (string * expected_value)) : Py.outcome R :=
  match items with
  | [] => Py.Return correct_fields
  | item :: items' =>
      Py.bind (check_field predicted correct_fields item)
              (fun correct_fields => check_fields predicted correct_fields items')
  end.

(** [def calculate_extraction_score(predicted, expected)]; [expected] is
    the list of the items of the dict, in its order (the keys are
    distinct). *)
Definition calculate_extraction_score (predicted : gmap string predicted_value)
    (expected : list (string * expected_value)) : Py.outcome R :=
  match expected with
  | [] => Py.Return (py_lit 0)
  | _ :: _ =>
      if existsb (fun item => String.eqb (fst item) "items") expected
      then Py.Return (py_lit (5 # 10))
      else
        let total_fields := length expected in
        Py.bind (check_fields predicted (py_int 0) expected) (fun correct_fields =>
        if (0 <? total_fields)%nat
        then Py.of_div (py_div correct_fields (py_int total_fields))
        else Py.Return (py_lit 0))
  end.

End Score.
End ProductEval.

(** * Vocabulary of the specification *)

Local Open Scope Q_scope.

(** A function returns the rational [q]: it does not raise, and its value
    is [q] as a rational number. *)
Definition returns (o : option Q) (q : Q) : Prop :=
  match o with
  | Some r => r == q
  | None => False
  end.

(** A function returns a score: it does not raise and its value is in
    [[0, 1]]. *)
Definition in_unit (o : option Q) : Prop :=
  exists r, o = Some r /\ 0 <= r /\ r <= 1.

(** [a / b] for two lengths. *)
Definition frac (a b : nat) : Q := inject_Z (Z.of_nat a) / inject_Z (Z.of_nat b).

(** [a / b], and 0 when [b] is 0. *)
Definition ratio (a b : nat) : Q := if (b =? 0)%nat then 0 else frac a b.

(** The sum of a list of rationals, as the specification writes it. *)
Definition sumQ (l : list Q) : Q := fold_right Qplus 0 l.

(** The normalized exact match of the specification: both strings are not
    empty and are equal once trimmed and lowercased. *)
Definition normalized_exact_match (a b : string) : Prop :=
  PyStr.lower (PyStr.strip a) = PyStr.lower (PyStr.strip b) /\ a <> "" /\ b <> "".

(** The token set of the specification: the unique word-character tokens of
    the lowercased text. *)
Definition token_set (s : string) : gset string :=
  list_to_set (PyStr.findall_words (PyStr.lower s)).

(** The normalised set of a list of labels: each item lowercased, then
    trimmed. *)
Definition item_set (l : list string) : gset string :=
  list_to_set (map (fun item => PyStr.strip (PyStr.lower item)) l).

(** The score field of a result record, 0 when the record has none. *)
Definition score_field (r : gmap string Q) : Q :=
  match r !! "score" with
  | Some s => s
  | None => 0
  end.

(** The order of the rationals is decidable. *)
#[local] Instance Qle_decision (x y : Q) : Decision (x <= y).
Proof.
  destruct (Qlt_le_dec y x) as [Hlt|Hle]; [right|left; exact Hle].
  intros Hle. exact (Qlt_not_le _ _ Hlt Hle).
Defined.

(** The weight the source applies to a score name: the entry of the weights
    mapping, 1.0 when the name has none. *)
Definition weight_of (weights : gmap string Q) (name : string) : Q :=
  match weights !! name with
  | Some w => w
  | None => 1
  end.

(** The [total_weight] of the source: the sum of the values of the weights
    mapping, whatever the score names are. *)
Definition total_weight (weights : gmap string Q) : Q :=
  sumQ (snd <$> map_to_list weights).

(** The sum of score times weight, over the names of the scores mapping. *)
Definition weighted_sum (scores weights : gmap string Q) : Q :=
  sumQ ((fun kv => snd kv * weight_of weights (fst kv)) <$> map_to_list scores).

(** The sum of the weights applied to the score names, 1.0 for a name
    absent from the weights mapping. *)
Definition applied_weight (scores weights : gmap string Q) : Q :=
  sumQ ((fun kv => weight_of weights (fst kv)) <$> map_to_list scores).

(** The weighted mean of the specification: the sum of score times weight
    divided by the sum of the weights, both over the score names. *)
Definition weighted_mean (scores weights : gmap string Q) : Q :=
  weighted_sum scores weights / applied_weight scores weights.

(** The normalized exact match of two lists: both are not empty and are
    equal item by item once lowercased and trimmed. *)
Definition normalized_list_match (p e : list string) : Prop :=
  p <> [] /\ e <> []
  /\ map (fun item => PyStr.strip (PyStr.lower item)) p
     = map (fun item => PyStr.strip (PyStr.lower item)) e.

(** [a] occurs inside [b]. *)
Definition substring_of (a b : string) : Prop :=
  exists pre post, b = pre +:+ a +:+ post.

(** A word earns synonym credit against a predicted text: it is the key or a
    listed synonym of some group of the table, and some phrase of that group
    (the key or a synonym) occurs inside the text. *)
Definition synonym_credit (predicted_lower word : string) : Prop :=
  exists group,
    group ∈ fashion_synonyms
    /\ (word = fst group \/ word ∈ snd group)
    /\ exists phrase,
         phrase ∈ fst group :: snd group /\ substring_of phrase predicted_lower.

(** The credited words as a computable set. *)
Definition credited_words (text : string) (predicted_words expected_words : gset string)
    : gset string :=
  filter (fun w => (w ∉ predicted_words)
                   /\ synonym_hit fashion_synonyms w text = true) expected_words.

(** ** Vocabulary for the evaluation scripts *)














(** The score of a call that returned, for the predicates on scores. *)
Definition returned (m : Py.outcome Q) : option Q := Py.value m.





(** * Properties *)

(** ** Strings *)

Example lower_ex : PyStr.lower "Red DRESS_9!" = "red dress_9!".
Proof. reflexivity. Qed.

Example strip_ex : PyStr.strip "  h&m  x   " = "h&m  x".
Proof. reflexivity. Qed.

Example findall_ex :
  PyStr.findall_words "high-end style, 2x" = ["high"; "end"; "style"; "2x"].
Proof. reflexivity. Qed.

Example contains_ex :
  PyStr.contains "casual" "a casualty" = true /\ PyStr.contains "ab" "ba" = false
  /\ PyStr.contains "" "" = true.
Proof. repeat split. Qed.

Lemma append_cons (c : ascii) (s t : string) :
  String c s +:+ t = String c (s +:+ t).
Proof. reflexivity. Qed.

Lemma append_nil_r (s : string) : s +:+ "" = s.
Proof. induction s as [|c s IH]; [reflexivity | rewrite append_cons, IH; reflexivity]. Qed.

Lemma prefix_app (n h : string) :
  String.prefix n h = true <-> exists post, h = n +:+ post.
Proof.
  revert h; induction n as [|c n IH]; intros h.
  - split; [intros _; exists h; reflexivity | intros _; destruct h; reflexivity].
  - destruct h as [|d h]; simpl.
    + split; [discriminate | intros [post Hp]; discriminate].
    + destruct (Ascii.ascii_dec c d) as [->|Hne].
      * rewrite IH. split; intros [post Hp]; exists post;
          rewrite ?append_cons in *; congruence.
      * split; [discriminate | intros [post Hp]; rewrite append_cons in Hp; congruence].
Qed.

(** [contains] is the substring relation. *)
Lemma contains_spec (n h : string) :
  PyStr.contains n h = true <-> exists pre post, h = pre +:+ n +:+ post.
Proof.
  induction h as [|d h IH]; cbn [PyStr.contains].
  - rewrite orb_false_r, prefix_app. split.
    + intros [post Hp]. exists EmptyString, post. exact Hp.
    + intros [[|c pre] [post Hp]]; [exists post; exact Hp | discriminate].
  - rewrite orb_true_iff, prefix_app, IH. split.
    + intros [[post Hp] | (pre & post & Hp)].
      * exists EmptyString, post. exact Hp.
      * exists (String d pre), post. rewrite append_cons. congruence.
    + intros ([|c pre] & post & Hp).
      * left. exists post. exact Hp.
      * right. exists pre, post. rewrite append_cons in Hp. congruence.
Qed.

Lemma contains_refl (s : string) : PyStr.contains s s = true.
Proof.
  apply contains_spec. exists EmptyString, EmptyString.
  symmetry. apply (append_nil_r s).
Qed.

Lemma is_space_lower (c : ascii) :
  PyStr.is_space (PyStr.lower_ascii c) = PyStr.is_space c.
Proof.
  destruct c as [[] [] [] [] [] [] [] []]; reflexivity.
Qed.

Lemma lower_lstrip (s : string) :
  PyStr.lower (PyStr.lstrip s) = PyStr.lstrip (PyStr.lower s).
Proof.
  induction s as [|c s IH]; simpl; [reflexivity|].
  rewrite is_space_lower. destruct (PyStr.is_space c); [exact IH | reflexivity].
Qed.

Lemma lower_rstrip (s : string) :
  PyStr.lower (PyStr.rstrip s) = PyStr.rstrip (PyStr.lower s).
Proof.
  induction s as [|c s IH]; simpl; [reflexivity|].
  rewrite <- IH, is_space_lower.
  destruct (PyStr.rstrip s); simpl; [destruct (PyStr.is_space c)|]; reflexivity.
Qed.

(** Trimming and lowercasing commute, so the two orders in which the source
    applies them give the same text. *)
Lemma lower_strip (s : string) :
  PyStr.lower (PyStr.strip s) = PyStr.strip (PyStr.lower s).
Proof. unfold PyStr.strip. rewrite lower_rstrip, lower_lstrip. reflexivity. Qed.

Lemma truthy_str_Some (s : string) : s <> "" -> truthy_str (Some s) = Some s.
Proof. destruct s; [congruence | reflexivity]. Qed.

Lemma truthy_str_inv (x : option string) (s : string) :
  truthy_str x = Some s -> x = Some s /\ s <> "".
Proof. destruct x as [[|c t]|]; simpl; intros [= <-]; split; congruence. Qed.

Lemma truthy_list_Some (l : list string) : l <> [] -> truthy_list (Some l) = Some l.
Proof. destruct l; [congruence | reflexivity]. Qed.

(** ** Rational arithmetic of the metrics *)

Lemma returns_Some (r q : Q) : r == q -> returns (Some r) q.
Proof. intros E; exact E. Qed.

Lemma returns_inv (o : option Q) (q : Q) :
  returns o q -> exists r, o = Some r /\ r == q.
Proof. destruct o as [r|]; simpl; [eauto | tauto]. Qed.

Lemma returns_unique (o : option Q) (q1 q2 : Q) :
  returns o q1 -> returns o q2 -> q1 == q2.
Proof. destruct o as [r|]; simpl; [intros <- E; exact E | tauto]. Qed.

Lemma int_pos (n : nat) : n <> 0%nat -> 0 < inject_Z (Z.of_nat n).
Proof.
  intros Hn. change 0 with (inject_Z 0). rewrite <- Zlt_Qlt. lia.
Qed.

Lemma int_nonneg (n : nat) : 0 <= inject_Z (Z.of_nat n).
Proof. change 0 with (inject_Z 0). rewrite <- Zle_Qle. lia. Qed.

Lemma int_le (a b : nat) : (a <= b)%nat -> inject_Z (Z.of_nat a) <= inject_Z (Z.of_nat b).
Proof. intros Hab. rewrite <- Zle_Qle. lia. Qed.

Lemma int_eqb_zero (n : nat) : n <> 0%nat -> Qeq_bool (inject_Z (Z.of_nat n)) 0 = false.
Proof.
  intros Hn. destruct (Qeq_bool _ 0) eqn:E; [|reflexivity].
  apply Qeq_bool_eq in E. pose proof (int_pos n Hn) as Hp. rewrite E in Hp.
  exfalso. exact (Qlt_irrefl 0 Hp).
Qed.

(** Dividing by a non-zero length does not raise. *)
Lemma div_int (a : Q) (n : nat) :
  n <> 0%nat -> py_div a (py_int n) = Some (a / inject_Z (Z.of_nat n)).
Proof.
  intros Hn. unfold py_int. cbn. rewrite (int_eqb_zero n Hn). reflexivity.
Qed.

Lemma ratio_or_zero_Q (a b : nat) :
  ratio_or_zero (R:=Q) a b = Some (if (0 <? b)%nat then frac a b else 0).
Proof.
  unfold ratio_or_zero. destruct (0 <? b)%nat eqn:E; [|reflexivity].
  apply Nat.ltb_lt in E. rewrite div_int by lia. reflexivity.
Qed.

Lemma frac_nonneg (a b : nat) : 0 <= frac a b.
Proof.
  unfold frac. destruct b as [|b].
  - unfold Qdiv. simpl. rewrite Qmult_0_r. apply Qle_refl.
  - apply Qle_shift_div_l; [apply int_pos; lia|].
    rewrite Qmult_0_l. apply int_nonneg.
Qed.

Lemma frac_le_1 (a b : nat) : (a <= b)%nat -> frac a b <= 1.
Proof.
  intros Hab. unfold frac. destruct b as [|b].
  - unfold Qdiv. simpl. rewrite Qmult_0_r. discriminate.
  - apply Qle_shift_div_r; [apply int_pos; lia|].
    rewrite Qmult_1_l. apply int_le, Hab.
Qed.

Lemma frac_same (n : nat) : n <> 0%nat -> frac n n == 1.
Proof.
  intros Hn. unfold frac. field. intros E.
  pose proof (int_pos n Hn) as Hp. rewrite E in Hp. exact (Qlt_irrefl 0 Hp).
Qed.

Lemma frac_zero_l (b : nat) : frac 0 b == 0.
Proof. unfold frac, Qdiv. simpl. apply Qmult_0_l. Qed.

Lemma frac_eq_1 (a b : nat) : b <> 0%nat -> frac a b == 1 -> a = b.
Proof.
  intros Hb E. unfold frac in E.
  assert (Hnz : ~ inject_Z (Z.of_nat b) == 0).
  { intros E0. pose proof (int_pos b Hb) as Hp. rewrite E0 in Hp.
    exact (Qlt_irrefl 0 Hp). }
  assert (E' : inject_Z (Z.of_nat a) == inject_Z (Z.of_nat b)).
  { rewrite <- (Qmult_div_r (inject_Z (Z.of_nat a)) (inject_Z (Z.of_nat b)) Hnz), E.
    ring. }
  apply (proj1 (inject_Z_injective _ _)) in E'. lia.
Qed.

Lemma frac_lt_1 (a b : nat) : (a < b)%nat -> frac a b < 1.
Proof.
  intros Hab. unfold frac.
  apply Qlt_shift_div_r; [apply int_pos; lia|].
  rewrite Qmult_1_l, <- Zlt_Qlt. lia.
Qed.

(** ** Exact match *)

Lemma exact_match_hit {R} `{PyNum R} (a b : string) :
  normalized_exact_match a b -> exact_match (Some a) (Some b) = Some (py_lit 1).
Proof.
  intros (E & Ha & Hb). unfold exact_match.
  rewrite (truthy_str_Some a Ha), (truthy_str_Some b Hb), E, String.eqb_refl.
  reflexivity.
Qed.

Lemma exact_match_miss {R} `{PyNum R} (a b : option string) :
  (forall a' b', a = Some a' -> b = Some b' -> ~ normalized_exact_match a' b') ->
  exact_match a b = Some (py_lit 0).
Proof.
  intros Hn. unfold exact_match.
  destruct (truthy_str a) as [a'|] eqn:Ea; [|reflexivity].
  destruct (truthy_str b) as [b'|] eqn:Eb; [|reflexivity].
  apply truthy_str_inv in Ea as [-> Ha]. apply truthy_str_inv in Eb as [-> Hb].
  destruct (String.eqb_spec (PyStr.lower (PyStr.strip a')) (PyStr.lower (PyStr.strip b')))
    as [E|E]; [|reflexivity].
  exfalso. apply (Hn a' b' eq_refl eq_refl). repeat split; assumption.
Qed.

Lemma normalized_exact_match_dec (a b : string) :
  normalized_exact_match a b \/ ~ normalized_exact_match a b.
Proof.
  unfold normalized_exact_match.
  destruct (string_dec (PyStr.lower (PyStr.strip a)) (PyStr.lower (PyStr.strip b)));
    destruct (string_dec a ""); destruct (string_dec b ""); tauto.
Qed.

(** C7. For all strings [a] and [b], [exact_match a b] is 1.0 exactly when
    [a.strip().lower() == b.strip().lower()] and both strings are non-empty,
    and it is 0.0 in every other case.  The statement is proved for the
    rational reading of the result and for the binary64 one. *)
Theorem exact_match_iff (a b : string) :
  (exact_match (R:=Q) (Some a) (Some b) = Some 1 <-> normalized_exact_match a b)
  /\ (normalized_exact_match a b \/ exact_match (R:=Q) (Some a) (Some b) = Some 0)
  /\ (exact_match (R:=spec_float) (Some a) (Some b) = Some (py_lit 1)
      <-> normalized_exact_match a b)
  /\ (normalized_exact_match a b
      \/ exact_match (R:=spec_float) (Some a) (Some b) = Some (py_lit 0)).
Proof.
  assert (Hmiss : forall R (N : PyNum R), ~ normalized_exact_match a b ->
            exact_match (R:=R) (Some a) (Some b) = Some (py_lit 0)).
  { intros R N Hn. apply exact_match_miss. intros a' b' [= <-] [= <-]. exact Hn. }
  destruct (normalized_exact_match_dec a b) as [Hm|Hn].
  - split; [|split; [|split]]; try (left; exact Hm);
      (split; [intros _; exact Hm | intros _; exact (exact_match_hit a b Hm)]).
  - split; [|split; [|split]]; try (right; exact (Hmiss _ _ Hn)).
    + split; [|tauto]. rewrite (Hmiss Q _ Hn). discriminate.
    + split; [|tauto]. rewrite (Hmiss spec_float _ Hn). intros [= E].
Qed.

Example exact_match_chic :
  exact_match (R:=Q) (Some "Chic") (Some "chic") = Some 1
  /\ exact_match (R:=Q) (Some "") (Some "chic") = Some 0
  /\ exact_match (R:=Q) None (Some "chic") = Some 0.
Proof. repeat split. Qed.

(** ** Partial match *)

(** C5. The threshold parameter of [partial_match] has no effect on the
    score: for all arguments and any two thresholds the results are equal,
    whatever the arithmetic.  In particular the threshold does not gate the
    result: "red" against "red dress blue shoes" scores 0.25 under the
    default threshold 0.5, and under any other. *)
Theorem partial_match_threshold_unused :
  (forall (R : Type) (N : PyNum R) (predicted expected : option string) (t1 t2 : R),
     partial_match predicted expected t1 = partial_match predicted expected t2)
  /\ (forall t : Q,
        returns (partial_match (Some "red") (Some "red dress blue shoes") t) (1 # 4))
  /\ (forall t : spec_float,
        partial_match (Some "red") (Some "red dress blue shoes") t
        = Some (py_lit (1 # 4))).
Proof.
  split; [|split].
  - intros R N predicted expected t1 t2. unfold partial_match.
    destruct (truthy_str predicted), (truthy_str expected); reflexivity.
  - intros t.
    change (partial_match (Some "red") (Some "red dress blue shoes") t)
      with (partial_match (Some "red") (Some "red dress blue shoes")
                          (partial_match_default_threshold (R:=Q))).
    vm_compute. reflexivity.
  - intros t.
    change (partial_match (Some "red") (Some "red dress blue shoes") t)
      with (partial_match (Some "red") (Some "red dress blue shoes")
                          (partial_match_default_threshold (R:=spec_float))).
    vm_compute. reflexivity.
Qed.

Lemma size_union_pos (X Y : gset string) : size Y <> 0%nat -> size (X ∪ Y) <> 0%nat.
Proof.
  intros HY. assert (Hle : (size Y <= size (X ∪ Y))%nat).
  { apply subseteq_size. intros x Hx. apply elem_of_union. right. exact Hx. }
  lia.
Qed.

Lemma size_inter_le_r (X Y : gset string) : (size (X ∩ Y) <= size Y)%nat.
Proof. apply subseteq_size. intros x Hx. apply elem_of_intersection in Hx. tauto. Qed.

Lemma size_inter_le_l (X Y : gset string) : (size (X ∩ Y) <= size X)%nat.
Proof. apply subseteq_size. intros x Hx. apply elem_of_intersection in Hx. tauto. Qed.

Lemma size_inter_le_union (X Y : gset string) : (size (X ∩ Y) <= size (X ∪ Y))%nat.
Proof.
  apply subseteq_size. intros x Hx. apply elem_of_intersection in Hx.
  apply elem_of_union. tauto.
Qed.

(** The value of [partial_match] on two non-empty strings. *)
Lemma partial_match_value (p e : string) (t : Q) :
  p <> "" -> e <> "" ->
  partial_match (Some p) (Some e) t =
  if (size (token_set e) =? 0)%nat then Some 0
  else Some ((frac (size (token_set p ∩ token_set e)) (size (token_set p ∪ token_set e))
              + frac (size (token_set p ∩ token_set e)) (size (token_set e)))
             / inject_Z 2).
Proof.
  intros Hp He. unfold partial_match.
  rewrite (truthy_str_Some p Hp), (truthy_str_Some e He).
  fold (token_set p). fold (token_set e).
  destruct (size (token_set e) =? 0)%nat eqn:E; [reflexivity|].
  apply Nat.eqb_neq in E.
  rewrite ratio_or_zero_Q.
  pose proof (size_union_pos (token_set p) (token_set e) E) as Hu.
  destruct (0 <? size (token_set p ∪ token_set e))%nat eqn:E2;
    [|apply Nat.ltb_ge in E2; lia].
  cbn [mbind option_bind]. rewrite div_int by exact E. cbn [mbind option_bind].
  rewrite (div_int _ 2) by lia. reflexivity.
Qed.

(** C6. For non-empty strings whose expected token set is not empty,
    [partial_match] returns the mean of the Jaccard similarity
    (|intersection| / |union| of the token sets) and of the recall
    (|intersection| / |expected token set|); in particular
    [partial_match("red dress", "red dress blue shoes")] is 0.5, as a rational
    and as a binary64 number. *)
Theorem partial_match_mean :
  (forall (p e : string) (t : Q),
     p <> "" -> e <> "" -> token_set e <> ∅ ->
     let inter := token_set p ∩ token_set e in
     let jaccard := frac (size inter) (size (token_set p ∪ token_set e)) in
     let recall := frac (size inter) (size (token_set e)) in
     returns (partial_match (Some p) (Some e) t) ((jaccard + recall) / 2))
  /\ (forall t : Q,
        returns (partial_match (Some "red dress") (Some "red dress blue shoes") t)
                (1 # 2))
  /\ (forall t : spec_float,
        partial_match (Some "red dress") (Some "red dress blue shoes") t
        = Some (py_lit (1 # 2))).
Proof.
  split; [|split].
  - intros p e t Hp He Hne. cbv zeta.
    rewrite (partial_match_value p e t Hp He).
    destruct (size (token_set e) =? 0)%nat eqn:E.
    + apply Nat.eqb_eq, size_empty_iff in E. exfalso. apply Hne.
      apply leibniz_equiv. exact E.
    + apply returns_Some. reflexivity.
  - intros t. vm_compute. reflexivity.
  - intros t. vm_compute. reflexivity.
Qed.

(** The general statement of C6 at the example of the specification. *)
Lemma partial_match_mean_witness :
  returns (partial_match (Some "red dress") (Some "red dress blue shoes") (1 # 2))
          ((frac 2 4 + frac 2 4) / 2).
Proof.
  apply (proj1 partial_match_mean "red dress" "red dress blue shoes" (1 # 2)).
  - discriminate.
  - discriminate.
  - vm_compute. discriminate.
Defined.

(** ** List overlap *)

Lemma item_set_nonempty (l : list string) : l <> [] -> size (item_set l) <> 0%nat.
Proof.
  destruct l as [|x l]; [congruence|]. intros _ E.
  apply size_empty_iff in E.
  apply (not_elem_of_empty (C:=gset string) (PyStr.strip (PyStr.lower x))).
  rewrite <- E. unfold item_set. simpl. apply elem_of_union. left.
  apply elem_of_singleton. reflexivity.
Qed.

(** The value of [list_overlap_score] on two non-empty lists. *)
Lemma list_overlap_value (p e : list string) :
  p <> [] -> e <> [] ->
  let inter := item_set p ∩ item_set e in
  let precision := frac (size inter) (size (item_set p)) in
  let recall := frac (size inter) (size (item_set e)) in
  list_overlap_score (Some p) (Some e) =
  if Qeq_bool (precision + recall) 0 then Some 0
  else Some (inject_Z 2 * (precision * recall) / (precision + recall)).
Proof.
  intros Hp He. cbv zeta. unfold list_overlap_score.
  rewrite (truthy_list_Some p Hp), (truthy_list_Some e He). cbv zeta.
  fold (item_set p). fold (item_set e).
  pose proof (item_set_nonempty p Hp) as HP.
  pose proof (item_set_nonempty e He) as HE.
  rewrite !ratio_or_zero_Q.
  destruct (0 <? size (item_set p))%nat eqn:E1; [|apply Nat.ltb_ge in E1; lia].
  destruct (0 <? size (item_set e))%nat eqn:E2; [|apply Nat.ltb_ge in E2; lia].
  cbn [mbind option_bind].
  set (precision := frac _ (size (item_set p))).
  set (recall := frac _ (size (item_set e))).
  change (py_eqb (py_add precision recall) (py_int 0))
    with (Qeq_bool (precision + recall) 0).
  destruct (Qeq_bool (precision + recall) 0) eqn:E; [reflexivity|].
  cbn. rewrite E. reflexivity.
Qed.

(** C8. For two non-empty lists, [list_overlap_score] takes the sets of
    lowercased and trimmed items, computes precision = |intersection| /
    |predicted set| and recall = |intersection| / |expected set|, and returns
    0.0 when their sum is 0 and their harmonic mean [2pr / (p + r)]
    otherwise; it returns 0.0 when either list is empty or absent.  In
    particular [list_overlap_score(["Zara","Nike"], ["nike","h&m"])] is 0.5,
    as a rational and as a binary64 number. *)
Theorem list_overlap_score_f1 :
  (forall p e : list string,
     p <> [] -> e <> [] ->
     let inter := item_set p ∩ item_set e in
     let precision := frac (size inter) (size (item_set p)) in
     let recall := frac (size inter) (size (item_set e)) in
     (precision + recall == 0 -> returns (list_overlap_score (Some p) (Some e)) 0)
     /\ (~ precision + recall == 0 ->
         returns (list_overlap_score (Some p) (Some e))
                 (2 * (precision * recall) / (precision + recall))))
  /\ (forall p e : option (list string),
        truthy_list p = None \/ truthy_list e = None ->
        returns (list_overlap_score p e) 0)
  /\ returns (list_overlap_score (Some ["Zara"; "Nike"]) (Some ["nike"; "h&m"])) (1 # 2)
  /\ list_overlap_score (R:=spec_float) (Some ["Zara"; "Nike"]) (Some ["nike"; "h&m"])
     = Some (py_lit (1 # 2)).
Proof.
  split; [|split; [|split]].
  - intros p e Hp He. cbv zeta.
    pose proof (list_overlap_value p e Hp He) as V. cbv zeta in V. rewrite V.
    split; intros Hs.
    + apply Qeq_eq_bool in Hs. rewrite Hs. apply returns_Some. reflexivity.
    + destruct (Qeq_bool _ 0) eqn:E.
      * apply Qeq_bool_eq in E. contradiction.
      * apply returns_Some. reflexivity.
  - intros p e [Hn|Hn]; unfold list_overlap_score.
    + destruct (truthy_list e); rewrite ?Hn; apply returns_Some; reflexivity.
    + rewrite Hn. apply returns_Some. reflexivity.
  - vm_compute. reflexivity.
  - vm_compute. reflexivity.
Qed.

(** The general statement of C8 at the example of the specification:
    precision and recall are both 1/2. *)
Lemma list_overlap_score_f1_witness :
  returns (list_overlap_score (Some ["Zara"; "Nike"]) (Some ["nike"; "h&m"]))
          (2 * (frac 1 2 * frac 1 2) / (frac 1 2 + frac 1 2)).
Proof.
  apply (proj1 list_overlap_score_f1 ["Zara"; "Nike"] ["nike"; "h&m"]).
  - discriminate.
  - discriminate.
  - vm_compute. discriminate.
Defined.

(** ** Aggregate accuracy *)

Lemma fold_left_Qplus (l : list Q) (a : Q) : fold_left Qplus l a == a + sumQ l.
Proof.
  revert a; induction l as [|x l IH]; intros a; simpl.
  - ring.
  - rewrite IH. ring.
Qed.

(** Python's [sum], a left fold from 0, is the sum. *)
Lemma py_sum_Q (l : list Q) : py_sum l == sumQ l.
Proof. unfold py_sum. rewrite fold_left_Qplus. unfold py_int. simpl. ring. Qed.

Lemma get_score_field (r : gmap string Q) : get_score r = score_field r.
Proof. unfold get_score, score_field. destruct (r !! "score"); reflexivity. Qed.

Lemma passed_count (threshold : Q) (results : list (gmap string Q)) :
  length (filter (fun r => py_leb threshold (get_score r) = true) results)
  = length (filter (fun r => threshold <= score_field r) results).
Proof.
  induction results as [|r rs IH]; [reflexivity|].
  rewrite !filter_cons. rewrite get_score_field.
  change (py_leb threshold (score_field r)) with (Qle_bool threshold (score_field r)).
  destruct (decide (Qle_bool threshold (score_field r) = true)) as [Hb|Hb];
    destruct (decide (threshold <= score_field r)) as [Hq|Hq]; cbn [length].
  - f_equal. exact IH.
  - exfalso. apply Hq. apply Qle_bool_iff. exact Hb.
  - exfalso. apply Hb. apply Qle_bool_iff. exact Hq.
  - exact IH.
Qed.

(** The report of [calculate_accuracy] on a non-empty list. *)
Lemma calculate_accuracy_value (results : list (gmap string Q)) (threshold : Q) :
  results <> [] ->
  exists rep,
    calculate_accuracy results threshold = Some rep
    /\ total rep = length results
    /\ passed rep
       = length (filter (fun r => threshold <= score_field r) results)
    /\ accuracy rep == frac (passed rep) (total rep)
    /\ avg_score rep
       == sumQ (map score_field results) / inject_Z (Z.of_nat (length results)).
Proof.
  intros Hne. destruct results as [|r rs]; [congruence|]. clear Hne.
  unfold calculate_accuracy.
  set (results := r :: rs).
  assert (Hlen : length results <> 0%nat) by (simpl; lia).
  rewrite (div_int _ (length results) Hlen). cbn [mbind option_bind].
  rewrite (div_int _ (length results) Hlen). cbn [mbind option_bind].
  eexists. split; [reflexivity|]. cbn [total passed accuracy avg_score].
  split; [reflexivity|]. split; [apply passed_count|]. split.
  - rewrite passed_count. reflexivity.
  - rewrite py_sum_Q.
    replace (map get_score results) with (map score_field results);
      [reflexivity|].
    apply map_ext. intros x. symmetry. apply get_score_field.
Qed.

(** C9. For a non-empty list of result records and a threshold,
    [calculate_accuracy] returns the report with [total] the number of
    records, [passed] the number of records whose score field (0 when
    missing) is at least the threshold, [accuracy] the ratio passed / total
    and [avg_score] the mean of the score fields; for the empty list it
    returns the all-zero report; it never raises.  In particular, on the
    records with scores 0.9 and 0.5 and the threshold 0.7, it gives total 2,
    passed 1, accuracy 0.5 and avg_score 0.7, in rationals and in binary64. *)
Theorem calculate_accuracy_report :
  (forall (results : list (gmap string Q)) (threshold : Q),
     results <> [] ->
     exists rep,
       calculate_accuracy results threshold = Some rep
       /\ total rep = length results
       /\ passed rep
          = length (filter (fun r => threshold <= score_field r) results)
       /\ accuracy rep == frac (passed rep) (total rep)
       /\ avg_score rep
          == sumQ (map score_field results) / inject_Z (Z.of_nat (length results)))
  /\ (forall threshold : Q,
        calculate_accuracy [] threshold
        = Some {| total := 0; passed := 0; accuracy := 0; avg_score := 0 |})
  /\ (forall threshold : spec_float,
        calculate_accuracy [] threshold
        = Some {| total := 0; passed := 0;
                  accuracy := py_lit 0; avg_score := py_lit 0 |})
  /\ (exists rep,
        calculate_accuracy [ {[ "score" := 9 # 10 ]}; {[ "score" := 1 # 2 ]} ] (7 # 10)
        = Some rep
        /\ total rep = 2%nat /\ passed rep = 1%nat
        /\ accuracy rep == 1 # 2 /\ avg_score rep == 7 # 10)
  /\ calculate_accuracy (R:=spec_float)
       [ {[ "score" := py_lit (9 # 10) ]}; {[ "score" := py_lit (1 # 2) ]} ]
       (py_lit (7 # 10))
     = Some {| total := 2; passed := 1;
               accuracy := py_lit (1 # 2); avg_score := py_lit (7 # 10) |}.
Proof.
  split; [|split; [|split; [|split]]].
  - intros results threshold Hne.
    destruct (calculate_accuracy_value results threshold Hne)
      as (rep & E & Ht & Hp & Ha & Hv).
    exists rep. repeat split; assumption.
  - intros threshold. reflexivity.
  - intros threshold. reflexivity.
  - eexists. split; [vm_compute; reflexivity|]. repeat split.
  - vm_compute. reflexivity.
Qed.

(** The general statement of C9 at the example of the specification. *)
Lemma calculate_accuracy_report_witness :
  exists rep,
    calculate_accuracy [ {[ "score" := 9 # 10 ]}; {[ "score" := 1 # 2 ]} ] (7 # 10)
    = Some rep
    /\ total rep = 2%nat
    /\ passed rep
       = length (filter (fun r => 7 # 10 <= score_field r)
                        [ ({[ "score" := 9 # 10 ]} : gmap string Q);
                          {[ "score" := 1 # 2 ]} ])
    /\ accuracy rep == frac (passed rep) (total rep)
    /\ avg_score rep
       == sumQ (map score_field [ ({[ "score" := 9 # 10 ]} : gmap string Q);
                                  {[ "score" := 1 # 2 ]} ])
          / inject_Z (Z.of_nat 2).
Proof.
  apply (proj1 calculate_accuracy_report
           [ {[ "score" := 9 # 10 ]}; {[ "score" := 1 # 2 ]} ] (7 # 10)).
  discriminate.
Defined.

(** ** Weighted score *)

Lemma sumQ_ext {A : Type} (f g : A -> Q) (l : list A) :
  (forall x, x ∈ l -> f x == g x) -> sumQ (f <$> l) == sumQ (g <$> l).
Proof.
  induction l as [|x l IH]; intros Hfg; simpl; [reflexivity|].
  rewrite (Hfg x) by (left). rewrite IH; [reflexivity|].
  intros y Hy. apply Hfg. right. exact Hy.
Qed.

Lemma sumQ_ones {A : Type} (l : list A) :
  sumQ ((fun _ => 1) <$> l) == inject_Z (Z.of_nat (length l)).
Proof.
  induction l as [|x l IH]; [reflexivity|].
  cbn [fmap list_fmap sumQ fold_right length]. fold (sumQ ((fun _ => 1) <$> l)).
  rewrite IH, Nat2Z.inj_succ, <- Z.add_1_l, inject_Z_plus. reflexivity.
Qed.

Lemma scores_nonempty_size (scores : gmap string Q) :
  scores <> ∅ -> (size scores =? 0)%nat = false.
Proof.
  intros Hne. apply Nat.eqb_neq. intros E. apply Hne.
  apply map_size_empty_iff. exact E.
Qed.

Lemma sumQ_perm (l k : list Q) : l ≡ₚ k -> sumQ l == sumQ k.
Proof.
  induction 1 as [|x l k _ IH|x y l|l k m _ IH1 _ IH2]; simpl.
  - reflexivity.
  - rewrite IH. reflexivity.
  - ring.
  - rewrite IH1. exact IH2.
Qed.

Lemma total_weight_insert (weights : gmap string Q) (k : string) (w : Q) :
  weights !! k = None -> total_weight (<[k:=w]> weights) == w + total_weight weights.
Proof.
  intros Hk. unfold total_weight.
  rewrite (sumQ_perm _ _ (fmap_Permutation snd _ _ (map_to_list_insert weights k w Hk))).
  reflexivity.
Qed.

Lemma total_weight_nonneg (weights : gmap string Q) :
  (forall k w, weights !! k = Some w -> 0 <= w) -> 0 <= total_weight weights.
Proof.
  induction weights as [|k w weights Hk IH] using map_ind; intros Hw.
  - discriminate.
  - rewrite (total_weight_insert weights k w Hk).
    assert (H0 : 0 <= w) by (apply (Hw k); apply lookup_insert_eq).
    assert (H1 : 0 <= total_weight weights).
    { apply IH. intros k' w' Hk'. apply (Hw k').
      rewrite lookup_insert_ne; [exact Hk' | congruence]. }
    lra.
Qed.

Lemma weighted_sum_insert (scores weights : gmap string Q) (k : string) (s : Q) :
  scores !! k = None ->
  weighted_sum (<[k:=s]> scores) weights
  == s * weight_of weights k + weighted_sum scores weights.
Proof.
  intros Hk. unfold weighted_sum.
  rewrite (sumQ_perm _ _ (fmap_Permutation _ _ _ (map_to_list_insert scores k s Hk))).
  reflexivity.
Qed.

Lemma weighted_sum_delete (scores weights : gmap string Q) (k : string) :
  scores !! k = None ->
  weighted_sum scores (delete k weights) == weighted_sum scores weights.
Proof.
  intros Hk. unfold weighted_sum. apply sumQ_ext. intros [k' s'] Hin.
  apply elem_of_map_to_list in Hin. unfold weight_of. simpl.
  rewrite lookup_delete_ne; [reflexivity | congruence].
Qed.

(** When the weights mapping has exactly the names of the scores mapping,
    the total weight is the sum of the weights of the score names. *)
Lemma total_weight_names (scores : gmap string Q) :
  forall weights : gmap string Q,
    (forall k, is_Some (scores !! k) <-> is_Some (weights !! k)) ->
    total_weight weights
    == sumQ ((fun kv => weight_of weights (fst kv)) <$> map_to_list scores).
Proof.
  induction scores as [|k s scores Hk IH] using map_ind; intros weights Hdom.
  - assert (E : weights = ∅).
    { apply map_eq. intros k. rewrite lookup_empty.
      destruct (weights !! k) as [w|] eqn:Ew; [|reflexivity].
      assert (Hs : is_Some ((∅ : gmap string Q) !! k)) by (apply Hdom; eauto).
      rewrite lookup_empty in Hs. destruct Hs as [? [=]]. }
    rewrite E. reflexivity.
  - destruct (proj1 (Hdom k)) as [w Hwk]; [rewrite lookup_insert_eq; eauto|].
    assert (Et : total_weight weights == w + total_weight (delete k weights)).
    { rewrite <- (total_weight_insert (delete k weights) k w)
        by apply lookup_delete_eq.
      rewrite (insert_delete_id weights k w Hwk). reflexivity. }
    rewrite Et, (IH (delete k weights)).
    + rewrite (sumQ_perm _ _ (fmap_Permutation _ _ _ (map_to_list_insert scores k s Hk))).
      cbn [fmap list_fmap sumQ fold_right fst].
      fold (sumQ ((fun kv => weight_of weights (fst kv)) <$> map_to_list scores)).
      assert (Ew : weight_of weights k = w) by (unfold weight_of; rewrite Hwk; reflexivity).
      rewrite Ew. apply Qplus_comp; [reflexivity|].
      apply sumQ_ext. intros [k' s'] Hin. apply elem_of_map_to_list in Hin.
      unfold weight_of. simpl. rewrite lookup_delete_ne; [reflexivity | congruence].
    + intros k'. destruct (decide (k = k')) as [<-|Hne].
      * rewrite Hk, lookup_delete_eq. split; intros [? [=]].
      * rewrite lookup_delete_ne by exact Hne. rewrite <- Hdom.
        rewrite lookup_insert_ne by exact Hne. reflexivity.
Qed.

(** The value of [weighted_score] with a weights mapping. *)
Lemma weighted_score_value (scores weights : gmap string Q) :
  scores <> ∅ ->
  let weighted_sum :=
    py_sum ((fun kv => snd kv * default 1 (weights !! fst kv)) <$> map_to_list scores) in
  let total_weight := py_sum (snd <$> map_to_list weights) in
  weighted_score scores (Some weights) =
  if Qeq_bool total_weight 0 then Some 0 else Some (weighted_sum / total_weight).
Proof.
  intros Hne. cbv zeta. unfold weighted_score.
  rewrite (scores_nonempty_size scores Hne).
  change (py_eqb (py_sum (snd <$> map_to_list weights)) (py_int 0))
    with (Qeq_bool (py_sum (snd <$> map_to_list weights)) 0).
  destruct (Qeq_bool (py_sum (snd <$> map_to_list weights)) 0) eqn:E; [reflexivity|].
  cbn [py_div Q_num]. rewrite E. reflexivity.
Qed.

Lemma weighted_sum_Q (scores weights : gmap string Q) :
  py_sum ((fun kv => snd kv * default 1 (weights !! fst kv)) <$> map_to_list scores)
  == weighted_sum scores weights.
Proof.
  rewrite py_sum_Q. unfold weighted_sum. apply sumQ_ext. intros [k s] _.
  unfold weight_of. simpl. destruct (weights !! k); reflexivity.
Qed.

Lemma total_weight_Q (weights : gmap string Q) :
  py_sum (snd <$> map_to_list weights) == total_weight weights.
Proof. apply py_sum_Q. Qed.

Lemma total_weight_ones (scores : gmap string Q) :
  total_weight ((fun _ => 1) <$> scores) == inject_Z (Z.of_nat (size scores)).
Proof.
  unfold total_weight. rewrite map_to_list_fmap, <- list_fmap_compose.
  rewrite <- length_map_to_list.
  rewrite <- (sumQ_ones (map_to_list scores)). apply sumQ_ext.
  intros [k s] _. reflexivity.
Qed.

Lemma weighted_sum_ones (scores : gmap string Q) :
  weighted_sum scores ((fun _ => 1) <$> scores) == sumQ (snd <$> map_to_list scores).
Proof.
  unfold weighted_sum. apply sumQ_ext. intros [k s] Hin.
  apply elem_of_map_to_list in Hin. unfold weight_of. simpl.
  rewrite lookup_fmap, Hin. simpl. ring.
Qed.

(** The formula of the source.  For a non-empty scores mapping,
    [weighted_score] returns the sum of score times weight over the score
    names, divided by the [total_weight] of the source, the sum of the values
    of the weights mapping (it is the sum of the weights of the score names
    when the mapping has exactly those names); a score name absent from the
    weights mapping has weight 1.0; with no weights mapping every name
    present in scores gets weight 1.0 (the result is then the plain mean);
    the result is 0.0 when the scores mapping is empty or the total weight
    is 0; the function never raises.  In particular
    [weighted_score({"a":1.0,"b":0.0}, {"a":3,"b":1})] is 0.75, as a rational
    and as a binary64 number. *)
Theorem weighted_score_formula :
  (forall (scores weights : gmap string Q),
     scores <> ∅ -> ~ total_weight weights == 0 ->
     returns (weighted_score scores (Some weights))
             (weighted_sum scores weights / total_weight weights))
  /\ (forall (scores weights : gmap string Q),
        (forall k, is_Some (scores !! k) <-> is_Some (weights !! k)) ->
        total_weight weights
        == sumQ ((fun kv => weight_of weights (fst kv)) <$> map_to_list scores))
  /\ (forall (scores weights : gmap string Q),
        total_weight weights == 0 ->
        returns (weighted_score scores (Some weights)) 0)
  /\ (forall weights : option (gmap string Q), returns (weighted_score ∅ weights) 0)
  /\ (forall weights : option (gmap string spec_float),
        weighted_score ∅ weights = Some (py_lit 0))
  /\ (forall scores : gmap string Q,
        weighted_score scores None
        = weighted_score scores (Some ((fun _ => 1) <$> scores)))
  /\ (forall scores : gmap string Q,
        scores <> ∅ ->
        returns (weighted_score scores None)
                (sumQ (snd <$> map_to_list scores) / inject_Z (Z.of_nat (size scores))))
  /\ returns (weighted_score (list_to_map [("a", 1); ("b", 0)])
                             (Some (list_to_map [("a", 3); ("b", 1)])))
             (3 # 4)
  /\ weighted_score (R:=spec_float)
       (list_to_map [("a", py_lit 1); ("b", py_lit 0)])
       (Some (list_to_map [("a", py_lit 3); ("b", py_lit 1)]))
     = Some (py_lit (3 # 4)).
Proof.
  assert (Hsome : forall scores weights : gmap string Q,
            scores <> ∅ -> ~ total_weight weights == 0 ->
            returns (weighted_score scores (Some weights))
                    (weighted_sum scores weights / total_weight weights)).
  { intros scores weights Hne Hw.
    pose proof (weighted_score_value scores weights Hne) as V. cbv zeta in V.
    rewrite V. destruct (Qeq_bool _ 0) eqn:E.
    - apply Qeq_bool_eq in E. rewrite total_weight_Q in E. contradiction.
    - apply returns_Some. rewrite weighted_sum_Q, total_weight_Q. reflexivity. }
  split; [exact Hsome|]. split; [exact total_weight_names|].
  split; [|split; [|split; [|split; [|split; [|split]]]]].
  - intros scores weights Hw. destruct (decide (scores = ∅)) as [->|Hne].
    + apply returns_Some. reflexivity.
    + pose proof (weighted_score_value scores weights Hne) as V. cbv zeta in V.
      rewrite V. rewrite <- total_weight_Q in Hw. apply Qeq_eq_bool in Hw.
      rewrite Hw. apply returns_Some. reflexivity.
  - intros weights. apply returns_Some. reflexivity.
  - intros weights. reflexivity.
  - intros scores. reflexivity.
  - intros scores Hne.
    change (weighted_score scores None)
      with (weighted_score scores (Some ((fun _ => 1) <$> scores))).
    assert (Hsz : ~ total_weight ((fun _ => 1) <$> scores) == 0).
    { rewrite total_weight_ones. intros E.
      assert (Hpos : 0 < inject_Z (Z.of_nat (size scores))).
      { apply int_pos. intros E0. apply Hne. apply map_size_empty_iff. exact E0. }
      rewrite E in Hpos. exact (Qlt_irrefl 0 Hpos). }
    pose proof (Hsome scores _ Hne Hsz) as Hr.
    apply returns_inv in Hr as (r & -> & Hr). apply returns_Some.
    rewrite Hr, weighted_sum_ones, total_weight_ones. reflexivity.
  - vm_compute. reflexivity.
  - vm_compute. reflexivity.
Qed.

(** The formula of the source at the example of the specification. *)
Lemma weighted_score_formula_witness :
  returns (weighted_score (list_to_map [("a", 1); ("b", 0)])
                          (Some (list_to_map [("a", 3); ("b", 1)])))
          (weighted_sum (list_to_map [("a", 1); ("b", 0)])
                        (list_to_map [("a", 3); ("b", 1)])
           / total_weight (list_to_map [("a", 3); ("b", 1)])).
Proof.
  apply (proj1 weighted_score_formula).
  - vm_compute. discriminate.
  - vm_compute. discriminate.
Defined.

(** When the weights mapping has exactly the score names, the source
    computes the weighted mean of the specification. *)
Lemma weighted_score_weighted_mean (scores weights : gmap string Q) :
  scores <> ∅ ->
  (forall k, is_Some (scores !! k) <-> is_Some (weights !! k)) ->
  ~ total_weight weights == 0 ->
  returns (weighted_score scores (Some weights)) (weighted_mean scores weights).
Proof.
  intros Hne Hdom Hw.
  pose proof (weighted_score_value scores weights Hne) as V. cbv zeta in V.
  rewrite V. destruct (Qeq_bool _ 0) eqn:E.
  - apply Qeq_bool_eq in E. rewrite total_weight_Q in E. contradiction.
  - apply returns_Some. unfold weighted_mean, applied_weight.
    rewrite weighted_sum_Q, total_weight_Q.
    rewrite (total_weight_names scores weights Hdom). reflexivity.
Qed.

(** C4, at the input where the code is not the weighted mean of the claim.
    For the scores a = 1.0 and b = 1.0 and the weights mapping with the only
    entry a = 1.0, the name b is absent and defaults to the weight 1.0: the
    weighted mean, sum of score times weight over sum of weight, is
    (1 + 1) / (1 + 1) = 1.0.  The code returns 2.0, as a rational and as a
    binary64 number: its denominator is the sum of the values of the weights
    mapping and leaves the defaulted weight out.  This is the defect that
    takes [weighted_score] out of the unit interval. *)
Theorem weighted_score_not_weighted_mean :
  weighted_mean (list_to_map [("a", 1); ("b", 1)]) (list_to_map [("a", 1)]) == 1
  /\ returns (weighted_score (list_to_map [("a", 1); ("b", 1)])
                             (Some (list_to_map [("a", 1)])))
             2
  /\ ~ returns (weighted_score (list_to_map [("a", 1); ("b", 1)])
                               (Some (list_to_map [("a", 1)])))
               (weighted_mean (list_to_map [("a", 1); ("b", 1)])
                              (list_to_map [("a", 1)]))
  /\ weighted_score (R:=spec_float)
       (list_to_map [("a", py_lit 1); ("b", py_lit 1)])
       (Some (list_to_map [("a", py_lit 1)]))
     = Some (py_lit 2).
Proof.
  assert (Em : weighted_mean (list_to_map [("a", 1); ("b", 1)])
                             (list_to_map [("a", 1)]) == 1)
    by (vm_compute; reflexivity).
  assert (Er : returns (weighted_score (list_to_map [("a", 1); ("b", 1)])
                                       (Some (list_to_map [("a", 1)]))) 2)
    by (vm_compute; reflexivity).
  split; [exact Em|]. split; [exact Er|]. split.
  - intros Hr. pose proof (returns_unique _ _ _ Er Hr) as E.
    rewrite Em in E. discriminate.
  - vm_compute. reflexivity.
Qed.

(** ** Fashion similarity *)

Lemma ratio_or_zero_ratio (a b : nat) : ratio_or_zero (R:=Q) a b = Some (ratio a b).
Proof. rewrite ratio_or_zero_Q. unfold ratio. destruct b; reflexivity. Qed.

Lemma ratio_nonneg (a b : nat) : 0 <= ratio a b.
Proof. unfold ratio. destruct (b =? 0)%nat; [apply Qle_refl | apply frac_nonneg]. Qed.

Lemma ratio_le_1 (a b : nat) : (a <= b)%nat -> ratio a b <= 1.
Proof.
  intros Hab. unfold ratio. destruct (b =? 0)%nat; [discriminate | apply frac_le_1, Hab].
Qed.

Lemma existsb_elem_of {A : Type} (f : A -> bool) (l : list A) :
  existsb f l = true <-> exists x, x ∈ l /\ f x = true.
Proof.
  rewrite existsb_exists. split; intros (x & Hx & Hf); exists x; split; try exact Hf.
  - apply list_elem_of_In. exact Hx.
  - apply list_elem_of_In. exact Hx.
Qed.

Lemma in_group_spec (word : string) (group : string * list string) :
  in_group word group = true <-> word = fst group \/ word ∈ snd group.
Proof.
  unfold in_group. rewrite orb_true_iff, String.eqb_eq, existsb_elem_of. split.
  - intros [E | (x & Hx & E)]; [left; exact E | right].
    apply String.eqb_eq in E. subst x. exact Hx.
  - intros [E | Hin]; [left; exact E | right].
    exists word. split; [exact Hin | apply String.eqb_refl].
Qed.

Lemma group_in_text_spec (group : string * list string) (text : string) :
  group_in_text group text = true
  <-> exists phrase, phrase ∈ fst group :: snd group /\ substring_of phrase text.
Proof.
  unfold group_in_text. rewrite existsb_elem_of.
  split; intros (x & Hx & Hc); exists x; (split; [exact Hx|]);
    apply contains_spec; exact Hc.
Qed.

Lemma synonym_hit_spec (groups : list (string * list string)) (word text : string) :
  synonym_hit groups word text = true
  <-> exists group,
        group ∈ groups /\ in_group word group = true
        /\ group_in_text group text = true.
Proof.
  induction groups as [|g rest IH]; simpl.
  - split; [discriminate | intros (g & Hg & _); inversion Hg].
  - destruct (in_group word g) eqn:Eg; [destruct (group_in_text g text) eqn:Et|].
    + split; [intros _ | reflexivity]. exists g. repeat split; [left | exact Eg | exact Et].
    + rewrite IH. split; intros (g' & Hg' & Hi & Ht).
      * exists g'. repeat split; [right; exact Hg' | exact Hi | exact Ht].
      * apply elem_of_cons in Hg' as [->|Hg']; [congruence|].
        exists g'. repeat split; assumption.
    + rewrite IH. split; intros (g' & Hg' & Hi & Ht).
      * exists g'. repeat split; [right; exact Hg' | exact Hi | exact Ht].
      * apply elem_of_cons in Hg' as [->|Hg']; [congruence|].
        exists g'. repeat split; assumption.
Qed.

(** The inner loop of the source decides synonym credit. *)
Lemma synonym_hit_credit (word text : string) :
  synonym_hit fashion_synonyms word text = true <-> synonym_credit text word.
Proof.
  rewrite synonym_hit_spec. unfold synonym_credit.
  split; intros (g & Hg & Hi & Ht); exists g; (split; [exact Hg|]).
  - split; [apply in_group_spec, Hi | apply group_in_text_spec, Ht].
  - split; [apply in_group_spec, Hi | apply group_in_text_spec, Ht].
Qed.

(** The outer loop counts the words that are not predicted and earn credit. *)
Lemma synonym_fold (predicted_words : gset string) (text : string)
    (l : list string) (n : nat) :
  fold_left (synonym_step predicted_words text) l n
  = (n + length (filter (fun w => (w ∉ predicted_words)
                                  /\ synonym_hit fashion_synonyms w text = true) l))%nat.
Proof.
  revert n; induction l as [|w l IH]; intros n; [simpl; lia|].
  cbn [fold_left]. rewrite IH, filter_cons. unfold synonym_step.
  destruct (bool_decide (w ∈ predicted_words)) eqn:Ein.
  - apply bool_decide_eq_true in Ein.
    destruct (decide ((w ∉ predicted_words) /\ _)) as [[Hn _]|_]; [contradiction|].
    reflexivity.
  - apply bool_decide_eq_false in Ein.
    destruct (synonym_hit fashion_synonyms w text) eqn:Eh.
    + destruct (decide ((w ∉ predicted_words) /\ _)) as [_|Hn]; [cbn [length]; lia|].
      exfalso. apply Hn. split; [exact Ein | reflexivity].
    + destruct (decide ((w ∉ predicted_words) /\ _)) as [[_ Hf]|_]; [discriminate|].
      reflexivity.
Qed.

(** The count of the loop is the size of the set of credited words: the
    expected tokens outside the predicted ones that earn synonym credit. *)
Lemma synonym_count (predicted_words expected_words credited : gset string)
    (text : string) :
  (forall w, w ∈ credited
             <-> w ∈ expected_words /\ (w ∉ predicted_words) /\ synonym_credit text w) ->
  fold_left (synonym_step predicted_words text) (elements expected_words) 0%nat
  = size credited.
Proof.
  intros Hc. rewrite synonym_fold. cbn [Nat.add].
  change (size credited) with (length (elements credited)).
  apply Permutation_length. apply NoDup_Permutation.
  - apply NoDup_filter, NoDup_elements.
  - apply NoDup_elements.
  - intros w. rewrite list_elem_of_filter, !elem_of_elements, Hc, synonym_hit_credit.
    tauto.
Qed.

Lemma py_min_Q (a b : Q) : py_min a b == Qmin a b.
Proof.
  unfold py_min. cbn [py_ltb Q_num]. destruct (Qle_bool a b) eqn:E; cbn [negb].
  - apply Qle_bool_iff in E. symmetry. apply Q.min_l. exact E.
  - symmetry. apply Q.min_r. apply Qlt_le_weak, Qnot_le_lt. intros Hle.
    apply Qle_bool_iff in Hle. congruence.
Qed.

(** The value of [fashion_similarity] on two non-empty strings. *)
Lemma fashion_similarity_value (p e : string) :
  p <> "" -> e <> "" ->
  let predicted_lower := PyStr.lower p in
  let expected_lower := PyStr.lower e in
  let synonym_matches :=
    fold_left (synonym_step (token_set p) predicted_lower)
              (elements (token_set e)) 0%nat in
  fashion_similarity (Some p) (Some e) =
  if String.eqb predicted_lower expected_lower then Some 1
  else if PyStr.contains expected_lower predicted_lower
          || PyStr.contains predicted_lower expected_lower
  then Some (9 # 10)
  else Some (py_min
               (ratio (size (token_set p ∩ token_set e)) (size (token_set e)) * (7 # 10)
                + ratio synonym_matches (size (token_set e)) * (3 # 10))
               1).
Proof.
  intros Hp He. cbv zeta. unfold fashion_similarity.
  rewrite (truthy_str_Some p Hp), (truthy_str_Some e He). cbv zeta.
  fold (token_set p). fold (token_set e).
  destruct (String.eqb (PyStr.lower p) (PyStr.lower e)); [reflexivity|].
  destruct (PyStr.contains (PyStr.lower e) (PyStr.lower p)
            || PyStr.contains (PyStr.lower p) (PyStr.lower e)); [reflexivity|].
  rewrite !ratio_or_zero_ratio. reflexivity.
Qed.

Lemma credited_words_spec (text : string) (predicted_words expected_words : gset string)
    (w : string) :
  w ∈ credited_words text predicted_words expected_words
  <-> w ∈ expected_words /\ (w ∉ predicted_words ∩ expected_words)
      /\ synonym_credit text w.
Proof.
  unfold credited_words. rewrite elem_of_filter, elem_of_intersection, synonym_hit_credit.
  tauto.
Qed.

Lemma not_substring_contains (a b : string) :
  ~ substring_of a b -> PyStr.contains a b = false.
Proof.
  intros Hn. destruct (PyStr.contains a b) eqn:E; [|reflexivity].
  exfalso. apply Hn. apply contains_spec. exact E.
Qed.

Lemma fashion_similarity_falsy {R} `{PyNum R} (p e : option string) :
  truthy_str p = None \/ truthy_str e = None ->
  fashion_similarity p e = Some (py_lit 0).
Proof.
  intros [E|E]; unfold fashion_similarity; rewrite E;
    [reflexivity | destruct (truthy_str p); reflexivity].
Qed.

(** The value of [fashion_similarity] below the two short cuts, with the
    synonym matches counted as a set of credited words. *)
Lemma fashion_similarity_blend (p e : string) (credited : gset string) :
  p <> "" -> e <> "" ->
  ~ substring_of (PyStr.lower e) (PyStr.lower p) ->
  ~ substring_of (PyStr.lower p) (PyStr.lower e) ->
  (forall w, w ∈ credited
             <-> w ∈ token_set e
                 /\ (w ∉ token_set p ∩ token_set e)
                 /\ synonym_credit (PyStr.lower p) w) ->
  returns (fashion_similarity (Some p) (Some e))
          (Qmin ((7 # 10) * ratio (size (token_set p ∩ token_set e)) (size (token_set e))
                 + (3 # 10) * ratio (size credited) (size (token_set e)))
                1).
Proof.
  intros Hp He Hn1 Hn2 Hcred.
  pose proof (fashion_similarity_value p e Hp He) as V. cbv zeta in V. rewrite V.
  destruct (String.eqb_spec (PyStr.lower p) (PyStr.lower e)) as [E|_].
  { exfalso. apply Hn1. rewrite E. apply contains_spec, contains_refl. }
  rewrite (not_substring_contains _ _ Hn1), (not_substring_contains _ _ Hn2).
  cbn [orb]. apply returns_Some. rewrite py_min_Q.
  rewrite (synonym_count (token_set p) (token_set e) credited (PyStr.lower p)).
  - apply Q.min_compat; [ring | reflexivity].
  - intros w. rewrite Hcred, elem_of_intersection. tauto.
Qed.

(** C3, as amended.  For two non-empty strings: [fashion_similarity] returns
    1.0 when the lowercased strings are equal (the strings are not trimmed);
    else 0.9 when one lowercased string occurs inside the other; otherwise
    [min(0.7 * base_score + 0.3 * synonym_score, 1.0)], where [base_score] is
    |direct token intersection| / |expected token set| (0 for an empty
    expected token set) and [synonym_score] is the number of expected tokens
    outside the direct intersection that earn synonym credit, divided by the
    expected token count (0 for an empty expected token set).  It returns 0.0
    when either input is empty or absent. *)
Theorem fashion_similarity_cases :
  (forall p e : string,
     p <> "" -> e <> "" ->
     let predicted_lower := PyStr.lower p in
     let expected_lower := PyStr.lower e in
     (predicted_lower = expected_lower ->
      returns (fashion_similarity (Some p) (Some e)) 1)
     /\ (predicted_lower <> expected_lower ->
         substring_of expected_lower predicted_lower
         \/ substring_of predicted_lower expected_lower ->
         returns (fashion_similarity (Some p) (Some e)) (9 # 10))
     /\ (~ substring_of expected_lower predicted_lower ->
         ~ substring_of predicted_lower expected_lower ->
         forall credited : gset string,
           (forall w, w ∈ credited
                      <-> w ∈ token_set e
                          /\ (w ∉ token_set p ∩ token_set e)
                          /\ synonym_credit predicted_lower w) ->
           let base_score :=
             ratio (size (token_set p ∩ token_set e)) (size (token_set e)) in
           let synonym_score := ratio (size credited) (size (token_set e)) in
           returns (fashion_similarity (Some p) (Some e))
                   (Qmin ((7 # 10) * base_score + (3 # 10) * synonym_score) 1)))
  /\ (forall p e : option string,
        truthy_str p = None \/ truthy_str e = None ->
        returns (fashion_similarity p e) 0).
Proof.
  split.
  - intros p e Hp He. cbv zeta.
    pose proof (fashion_similarity_value p e Hp He) as V. cbv zeta in V.
    split; [|split].
    + intros E. rewrite V, E, String.eqb_refl. apply returns_Some. reflexivity.
    + intros Hne Hsub. rewrite V.
      destruct (String.eqb_spec (PyStr.lower p) (PyStr.lower e)) as [E|_];
        [contradiction|].
      assert (Hc : PyStr.contains (PyStr.lower e) (PyStr.lower p)
                   || PyStr.contains (PyStr.lower p) (PyStr.lower e) = true).
      { apply orb_true_iff. destruct Hsub as [Hs|Hs]; [left|right];
          apply contains_spec; exact Hs. }
      rewrite Hc. apply returns_Some. reflexivity.
    + intros Hn1 Hn2 credited Hcred.
      exact (fashion_similarity_blend p e credited Hp He Hn1 Hn2 Hcred).
  - intros p e Hf. rewrite (fashion_similarity_falsy p e Hf).
    apply returns_Some. reflexivity.
Qed.

(** The general statement of C3 at an input with synonym credit: of the
    expected tokens "luxury" and "handbag" none is predicted, and "luxury" is
    credited because "premium" occurs in the predicted text. *)
Lemma fashion_similarity_cases_witness :
  returns (fashion_similarity (Some "a premium bag") (Some "luxury handbag"))
          (Qmin ((7 # 10) * ratio 0 2 + (3 # 10) * ratio 1 2) 1).
Proof.
  pose proof (proj1 fashion_similarity_cases "a premium bag" "luxury handbag") as H.
  cbv zeta in H.
  assert (Hp : "a premium bag" <> "") by discriminate.
  assert (He : "luxury handbag" <> "") by discriminate.
  destruct (H Hp He) as (_ & _ & H3).
  assert (Hn1 : ~ substring_of (PyStr.lower "luxury handbag") (PyStr.lower "a premium bag")).
  { intros Hs. apply contains_spec in Hs. vm_compute in Hs. discriminate. }
  assert (Hn2 : ~ substring_of (PyStr.lower "a premium bag") (PyStr.lower "luxury handbag")).
  { intros Hs. apply contains_spec in Hs. vm_compute in Hs. discriminate. }
  exact (H3 Hn1 Hn2
           (credited_words (PyStr.lower "a premium bag")
                           (token_set "a premium bag") (token_set "luxury handbag"))
           (credited_words_spec _ _ _)).
Defined.

(** C3, counterexample to the claim as stated: "chic " and "chic" are a
    normalized exact match (equal once trimmed and lowercased), and
    [fashion_similarity] returns 0.9 on them, not 1.0. *)
Lemma fashion_similarity_not_trimmed :
  normalized_exact_match "chic " "chic"
  /\ returns (fashion_similarity (Some "chic ") (Some "chic")) (9 # 10)
  /\ ~ returns (fashion_similarity (Some "chic ") (Some "chic")) 1
  /\ fashion_similarity (R:=spec_float) (Some "chic ") (Some "chic")
     = Some (py_lit (9 # 10)).
Proof.
  split; [|split; [|split]].
  - repeat split; discriminate.
  - vm_compute. reflexivity.
  - vm_compute. discriminate.
  - vm_compute. reflexivity.
Qed.

(** The example of the specification with a hyphenated synonym: the tokens
    "high" and "end" are in no group, so only "style" counts, with base
    score 1/3 and no synonym credit. *)
Example fashion_similarity_luxury_style :
  returns (fashion_similarity (Some "luxury style") (Some "high-end style")) (7 # 30).
Proof. vm_compute. reflexivity. Qed.

(** C10, as amended.  For two non-empty strings whose token sets are equal
    and not empty, and where neither lowercased string occurs inside the
    other, [fashion_similarity] returns 0.7: the base overlap is 1, no token
    is eligible for synonym credit.  The example "dress red" against
    "red dress" gives 0.7 as a rational and as a binary64 number. *)
Theorem fashion_similarity_same_tokens :
  (forall p e : string,
     p <> "" -> e <> "" ->
     token_set p = token_set e -> token_set e <> ∅ ->
     ~ substring_of (PyStr.lower p) (PyStr.lower e) ->
     ~ substring_of (PyStr.lower e) (PyStr.lower p) ->
     returns (fashion_similarity (Some p) (Some e)) (7 # 10))
  /\ returns (fashion_similarity (Some "dress red") (Some "red dress")) (7 # 10)
  /\ fashion_similarity (R:=spec_float) (Some "dress red") (Some "red dress")
     = Some (py_lit (7 # 10)).
Proof.
  split; [|split].
  - intros p e Hp He Heq Hne Hn1 Hn2.
    pose proof (fun Hn2 Hn1 credited =>
                  fashion_similarity_blend p e credited Hp He Hn2 Hn1) as H3.
    rewrite Heq in H3.
    replace (token_set e ∩ token_set e) with (token_set e) in H3
      by (apply leibniz_equiv; intros w; rewrite elem_of_intersection; tauto).
    assert (Hsz : size (token_set e) <> 0%nat).
    { intros E. apply Hne. apply leibniz_equiv, size_empty_iff. exact E. }
    assert (Hr : returns (fashion_similarity (Some p) (Some e))
                   (Qmin ((7 # 10) * ratio (size (token_set e)) (size (token_set e))
                          + (3 # 10) * ratio (size (∅ : gset string)) (size (token_set e)))
                         1)).
    { apply (H3 Hn2 Hn1 ∅). intros w. split.
      - intros Hw. exfalso. exact (not_elem_of_empty w Hw).
      - intros (Hw & Hnw & _). exfalso. apply Hnw. exact Hw. }
    apply returns_inv in Hr as (r & -> & Hr). apply returns_Some.
    rewrite Hr, size_empty. unfold ratio.
    destruct (size (token_set e) =? 0)%nat eqn:E; [apply Nat.eqb_eq in E; contradiction|].
    rewrite (frac_same _ Hsz), frac_zero_l.
    rewrite Q.min_l; [ring | lra].
  - vm_compute. reflexivity.
  - vm_compute. reflexivity.
Qed.

(** The general statement of C10 at the example "dress red" / "red dress". *)
Lemma fashion_similarity_same_tokens_witness :
  returns (fashion_similarity (Some "dress red") (Some "red dress")) (7 # 10).
Proof.
  apply (proj1 fashion_similarity_same_tokens "dress red" "red dress").
  - discriminate.
  - discriminate.
  - vm_compute. reflexivity.
  - vm_compute. discriminate.
  - intros Hs. apply contains_spec in Hs. vm_compute in Hs. discriminate.
  - intros Hs. apply contains_spec in Hs. vm_compute in Hs. discriminate.
Defined.

(** C10, counterexample to the claim as stated: "!" and "?" are non-empty,
    their token sets are equal (both empty), neither occurs inside the
    other, and [fashion_similarity] returns 0.0 on them, not 0.7. *)
Lemma fashion_similarity_no_tokens :
  "!" <> "" /\ "?" <> ""
  /\ token_set "!" = token_set "?"
  /\ ~ substring_of (PyStr.lower "!") (PyStr.lower "?")
  /\ ~ substring_of (PyStr.lower "?") (PyStr.lower "!")
  /\ returns (fashion_similarity (Some "!") (Some "?")) 0
  /\ ~ returns (fashion_similarity (Some "!") (Some "?")) (7 # 10)
  /\ fashion_similarity (R:=spec_float) (Some "!") (Some "?") = Some (py_lit 0).
Proof.
  assert (Hn : forall a b, PyStr.contains a b = false -> ~ substring_of a b).
  { intros a b E Hs. apply contains_spec in Hs. congruence. }
  split; [discriminate|]. split; [discriminate|].
  split; [vm_compute; reflexivity|].
  split; [apply Hn; reflexivity|]. split; [apply Hn; reflexivity|].
  split; [vm_compute; reflexivity|].
  split; [vm_compute; discriminate | vm_compute; reflexivity].
Qed.

(** ** Scores in the unit interval *)

Lemma in_unit_zero : in_unit (Some 0).
Proof. exists 0. repeat split; discriminate. Qed.

Lemma in_unit_one : in_unit (Some 1).
Proof. exists 1. repeat split; discriminate. Qed.


Lemma exact_match_in_unit (p e : option string) : in_unit (exact_match p e).
Proof.
  unfold exact_match. destruct (truthy_str p); [|apply in_unit_zero].
  destruct (truthy_str e); [|apply in_unit_zero].
  destruct (String.eqb _ _); [apply in_unit_one | apply in_unit_zero].
Qed.

Lemma partial_match_falsy {R} `{PyNum R} (p e : option string) (t : R) :
  truthy_str p = None \/ truthy_str e = None ->
  partial_match p e t = Some (py_lit 0).
Proof.
  intros [E|E]; unfold partial_match; rewrite E;
    [reflexivity | destruct (truthy_str p); reflexivity].
Qed.

Lemma exact_match_falsy {R} `{PyNum R} (p e : option string) :
  truthy_str p = None \/ truthy_str e = None ->
  exact_match p e = Some (py_lit 0).
Proof.
  intros [E|E]; unfold exact_match; rewrite E;
    [reflexivity | destruct (truthy_str p); reflexivity].
Qed.



Lemma frac_add (a b n : nat) : n <> 0%nat -> frac a n + frac b n == frac (a + b) n.
Proof.
  intros Hn. unfold frac. rewrite Nat2Z.inj_add, inject_Z_plus. field.
  intros E. pose proof (int_pos n Hn) as Hp. rewrite E in Hp.
  exact (Qlt_irrefl 0 Hp).
Qed.

(** The synonym matches are counted among the expected tokens that are not
    in the direct overlap. *)
Lemma synonym_matches_bound (text : string) (predicted_words expected_words : gset string) :
  (size (predicted_words ∩ expected_words)
   + fold_left (synonym_step predicted_words text) (elements expected_words) 0
   <= size expected_words)%nat.
Proof.
  rewrite (synonym_count predicted_words expected_words
             (credited_words text predicted_words expected_words) text).
  - rewrite <- size_union.
    + apply subseteq_size. intros w Hw. apply elem_of_union in Hw as [Hw|Hw].
      * apply elem_of_intersection in Hw. tauto.
      * apply credited_words_spec in Hw. tauto.
    + intros w Hw1 Hw2. apply credited_words_spec in Hw2. tauto.
  - intros w. rewrite credited_words_spec, elem_of_intersection. tauto.
Qed.

(** Below the two short cuts, [fashion_similarity] never exceeds 0.7. *)
Lemma fashion_blend_bound (i m n : nat) :
  (i + m <= n)%nat ->
  0 <= ratio i n * (7 # 10) + ratio m n * (3 # 10)
  /\ ratio i n * (7 # 10) + ratio m n * (3 # 10) <= 7 # 10.
Proof.
  intros Hle. pose proof (ratio_nonneg i n) as Hi. pose proof (ratio_nonneg m n) as Hm.
  split; [lra|].
  assert (Hs : ratio i n + ratio m n <= 1).
  { unfold ratio in *. destruct (n =? 0)%nat eqn:E; [lra|].
    apply Nat.eqb_neq in E. rewrite (frac_add i m n E). apply frac_le_1, Hle. }
  lra.
Qed.


Lemma list_overlap_falsy {R} `{PyNum R} (p e : option (list string)) :
  truthy_list p = None \/ truthy_list e = None ->
  list_overlap_score p e = Some (py_lit 0).
Proof.
  intros [E|E]; unfold list_overlap_score; rewrite E;
    [destruct (truthy_list e); reflexivity | reflexivity].
Qed.

Lemma truthy_list_cases (p e : option (list string)) :
  (exists a b, p = Some a /\ e = Some b /\ a <> [] /\ b <> [])
  \/ truthy_list p = None \/ truthy_list e = None.
Proof.
  destruct p as [[|x a]|]; [right; left; reflexivity | | right; left; reflexivity].
  destruct e as [[|y b]|]; [right; right; reflexivity | | right; right; reflexivity].
  left. exists (x :: a), (y :: b). repeat split; discriminate.
Qed.

Lemma f1_bounds (x y : Q) :
  0 <= x -> x <= 1 -> 0 <= y -> y <= 1 -> ~ x + y == 0 ->
  0 <= inject_Z 2 * (x * y) / (x + y) /\ inject_Z 2 * (x * y) / (x + y) <= 1.
Proof.
  intros Hx0 Hx1 Hy0 Hy1 Hs. change (inject_Z 2) with 2.
  assert (Hpos : 0 < x + y).
  { apply Qnot_le_lt. intros Hle. apply Hs. lra. }
  split.
  - apply Qle_shift_div_l; [exact Hpos|]. nra.
  - apply Qle_shift_div_r; [exact Hpos|]. nra.
Qed.

Lemma list_overlap_in_unit (p e : option (list string)) :
  in_unit (list_overlap_score p e).
Proof.
  destruct (truthy_list_cases p e) as [(a & b & -> & -> & Ha & Hb) | Hf].
  - pose proof (list_overlap_value a b Ha Hb) as V. cbv zeta in V. rewrite V.
    destruct (Qeq_bool _ 0) eqn:E; [apply in_unit_zero|].
    apply Qeq_bool_neq in E. eexists. split; [reflexivity|].
    apply f1_bounds; try apply frac_nonneg; try exact E.
    + apply frac_le_1, size_inter_le_l.
    + apply frac_le_1, size_inter_le_r.
  - rewrite (list_overlap_falsy p e Hf). apply in_unit_zero.
Qed.

Lemma sumQ_bounds (l : list Q) :
  (forall x, x ∈ l -> 0 <= x /\ x <= 1) ->
  0 <= sumQ l /\ sumQ l <= inject_Z (Z.of_nat (length l)).
Proof.
  induction l as [|x l IH]; intros Hl.
  - simpl. split; discriminate.
  - destruct (Hl x) as [Hx0 Hx1]; [left|].
    destruct IH as [H0 H1]; [intros y Hy; apply Hl; right; exact Hy|].
    cbn [sumQ fold_right length]. fold (sumQ l).
    rewrite Nat2Z.inj_succ, <- Z.add_1_l, inject_Z_plus.
    change (inject_Z 1) with 1. split; lra.
Qed.

(** The two ratios of the report are scores when every record carries a
    score (or none). *)
Lemma calculate_accuracy_in_unit (results : list (gmap string Q)) (threshold : Q) :
  (forall r, r ∈ results -> 0 <= score_field r /\ score_field r <= 1) ->
  exists rep,
    calculate_accuracy results threshold = Some rep
    /\ (0 <= accuracy rep /\ accuracy rep <= 1)
    /\ (0 <= avg_score rep /\ avg_score rep <= 1).
Proof.
  intros Hs. destruct results as [|r rs].
  - eexists. split; [reflexivity|]. cbn. repeat split; discriminate.
  - destruct (calculate_accuracy_value (r :: rs) threshold)
      as (rep & -> & Ht & Hp & Ha & Hv); [discriminate|].
    exists rep. split; [reflexivity|]. split.
    + rewrite Ha. split; [apply frac_nonneg|]. apply frac_le_1.
      rewrite Hp, Ht. apply length_filter.
    + rewrite Hv.
      destruct (sumQ_bounds (map score_field (r :: rs))) as [H0 H1].
      { intros x Hx. apply list_elem_of_fmap in Hx as (r' & -> & Hr'). apply Hs, Hr'. }
      rewrite length_map in H1.
      assert (Hpos : 0 < inject_Z (Z.of_nat (length (r :: rs))))
        by (apply int_pos; discriminate).
      split.
      * apply Qle_shift_div_l; [exact Hpos | lra].
      * apply Qle_shift_div_r; [exact Hpos | lra].
Qed.

(** When every score name has a weight, the weighted sum is at most the
    total weight. *)
Lemma weighted_sum_bounds (scores : gmap string Q) :
  forall weights : gmap string Q,
    (forall k s, scores !! k = Some s -> 0 <= s /\ s <= 1) ->
    (forall k w, weights !! k = Some w -> 0 <= w) ->
    (forall k, is_Some (scores !! k) -> is_Some (weights !! k)) ->
    0 <= weighted_sum scores weights
    /\ weighted_sum scores weights <= total_weight weights.
Proof.
  induction scores as [|k s scores Hk IH] using map_ind; intros weights Hs Hw Hcov.
  - split; [discriminate | apply total_weight_nonneg, Hw].
  - destruct (Hcov k) as [w Hwk]; [rewrite lookup_insert_eq; eauto|].
    destruct (Hs k s) as [Hs0 Hs1]; [apply lookup_insert_eq|].
    pose proof (Hw k w Hwk) as Hw0.
    destruct (IH (delete k weights)) as [H0 H1].
    + intros k' s' Hk'. apply (Hs k').
      rewrite lookup_insert_ne; [exact Hk' | congruence].
    + intros k' w' Hk'. destruct (decide (k = k')) as [<-|Hne].
      * rewrite lookup_delete_eq in Hk'. discriminate.
      * rewrite lookup_delete_ne in Hk' by exact Hne. apply (Hw k' w' Hk').
    + intros k' Hk'. destruct (decide (k = k')) as [<-|Hne].
      * rewrite Hk in Hk'. destruct Hk' as [? [=]].
      * rewrite lookup_delete_ne by exact Hne. apply Hcov.
        rewrite lookup_insert_ne by exact Hne. exact Hk'.
    + rewrite (weighted_sum_delete scores weights k Hk) in H0, H1.
      rewrite (weighted_sum_insert scores weights k s Hk).
      assert (Ew : weight_of weights k = w) by (unfold weight_of; rewrite Hwk; reflexivity).
      rewrite Ew.
      assert (Et : total_weight weights == w + total_weight (delete k weights)).
      { rewrite <- (total_weight_insert (delete k weights) k w)
          by apply lookup_delete_eq.
        rewrite (insert_delete_id weights k w Hwk). reflexivity. }
      rewrite Et. split; nra.
Qed.

(** With non-negative weights that cover every score name, or with no
    weights mapping, [weighted_score] is a score. *)
Lemma weighted_score_in_unit (scores : gmap string Q) (weights : option (gmap string Q)) :
  (forall k s, scores !! k = Some s -> 0 <= s /\ s <= 1) ->
  (forall ws, weights = Some ws ->
     (forall k w, ws !! k = Some w -> 0 <= w)
     /\ (forall k, is_Some (scores !! k) -> is_Some (ws !! k))) ->
  in_unit (weighted_score scores weights).
Proof.
  intros Hs Hw.
  assert (Hsome : forall ws : gmap string Q,
            (forall k w, ws !! k = Some w -> 0 <= w) ->
            (forall k, is_Some (scores !! k) -> is_Some (ws !! k)) ->
            in_unit (weighted_score scores (Some ws))).
  { intros ws Hw0 Hcov. destruct (decide (scores = ∅)) as [->|Hne].
    { apply in_unit_zero. }
    pose proof (weighted_score_value scores ws Hne) as V. cbv zeta in V. rewrite V.
    destruct (Qeq_bool _ 0) eqn:E; [apply in_unit_zero|].
    apply Qeq_bool_neq in E. rewrite total_weight_Q in E.
    eexists. split; [reflexivity|]. rewrite weighted_sum_Q, total_weight_Q.
    destruct (weighted_sum_bounds scores ws Hs Hw0 Hcov) as [H0 H1].
    assert (Hpos : 0 < total_weight ws).
    { apply Qnot_le_lt. intros Hle. apply E. lra. }
    split.
    - apply Qle_shift_div_l; [exact Hpos | lra].
    - apply Qle_shift_div_r; [exact Hpos | lra]. }
  destruct weights as [ws|].
  - destruct (Hw ws eq_refl) as [Hw0 Hcov]. apply Hsome; assumption.
  - change (weighted_score scores None)
      with (weighted_score scores (Some ((fun _ => 1) <$> scores))).
    apply Hsome.
    + intros k w Hk. rewrite lookup_fmap in Hk.
      destruct (scores !! k); simpl in Hk; [|discriminate].
      injection Hk as <-. discriminate.
    + intros k Hk. rewrite lookup_fmap. apply fmap_is_Some. exact Hk.
Qed.

(** C1, at the input where the code leaves the interval.  The scores 1.0 and
    1.0 are in [[0, 1]] and the weight 1.0 is non-negative, but the name "b"
    has no weight: it counts with the default weight 1.0 in the numerator
    and not at all in the denominator, and [weighted_score] returns 2.0, as
    a rational and as a binary64 number.  On every other input of the
    claim the six functions stay in the interval, as the lemmas of this
    section show. *)
Theorem weighted_score_above_one :
  (forall k s, (list_to_map [("a", 1); ("b", 1)] : gmap string Q) !! k = Some s ->
               0 <= s /\ s <= 1)
  /\ (forall k w, (list_to_map [("a", 1)] : gmap string Q) !! k = Some w -> 0 <= w)
  /\ returns (weighted_score (list_to_map [("a", 1); ("b", 1)])
                             (Some (list_to_map [("a", 1)])))
             2
  /\ ~ in_unit (weighted_score (R:=Q) (list_to_map [("a", 1); ("b", 1)])
                               (Some (list_to_map [("a", 1)])))
  /\ weighted_score (R:=spec_float)
       (list_to_map [("a", py_lit 1); ("b", py_lit 1)])
       (Some (list_to_map [("a", py_lit 1)]))
     = Some (py_lit 2).
Proof.
  split; [|split; [|split; [|split]]].
  - intros k s. cbn [list_to_map foldr uncurry fst snd].
    intros Hk. apply lookup_insert_Some in Hk as [[_ <-] | [_ Hk]].
    { split; discriminate. }
    apply lookup_insert_Some in Hk as [[_ <-] | [_ Hk]].
    { split; discriminate. }
    rewrite lookup_empty in Hk. discriminate.
  - intros k w. cbn [list_to_map foldr uncurry fst snd].
    intros Hk. apply lookup_insert_Some in Hk as [[_ <-] | [_ Hk]].
    { discriminate. }
    rewrite lookup_empty in Hk. discriminate.
  - vm_compute. reflexivity.
  - intros (r & Hr & _ & H1).
    assert (E : weighted_score (R:=Q) (list_to_map [("a", 1); ("b", 1)])
                  (Some (list_to_map [("a", 1)])) = Some (2 / 1))
      by (vm_compute; reflexivity).
    rewrite E in Hr. injection Hr as <-. apply H1. reflexivity.
  - vm_compute. reflexivity.
Qed.

(** ** Scores 0.0 and 1.0 *)

Lemma half_sum_one (x y : Q) :
  x <= 1 -> y <= 1 -> (x + y) / inject_Z 2 == 1 -> x == 1 /\ y == 1.
Proof.
  intros Hx Hy E.
  assert (Es : x + y == 2).
  { rewrite <- (Qmult_div_r (x + y) (inject_Z 2)) by discriminate.
    rewrite E. reflexivity. }
  split; lra.
Qed.

Lemma f1_one (x y : Q) :
  0 <= x -> x <= 1 -> 0 <= y -> y <= 1 -> ~ x + y == 0 ->
  inject_Z 2 * (x * y) / (x + y) == 1 -> x == 1 /\ y == 1.
Proof.
  intros Hx0 Hx1 Hy0 Hy1 Hs E. change (inject_Z 2) with 2 in E.
  assert (Ep : 2 * (x * y) == x + y).
  { rewrite <- (Qmult_div_r (2 * (x * y)) (x + y)) by exact Hs.
    rewrite E. ring. }
  assert (Hpos : 0 < x + y).
  { apply Qnot_le_lt. intros Hle. apply Hs. lra. }
  assert (Ex : x * (1 - y) == 0) by nra.
  assert (Ey : y * (1 - x) == 0) by nra.
  destruct (Qmult_integral _ _ Ex) as [Ex0 | Ey1].
  - rewrite Ex0 in Ey. assert (Ey0 : y == 0) by lra. lra.
  - assert (Hy : y == 1) by lra. rewrite Hy in Ey.
    split; [lra | exact Hy].
Qed.

Lemma not_returns_zero_one : ~ returns (Some 0) 1.
Proof. simpl. discriminate. Qed.

Lemma inter_union_eq (X Y : gset string) :
  size (X ∩ Y) = size (X ∪ Y) -> X = Y.
Proof.
  intros E.
  assert (Heq : X ∩ Y = X ∪ Y).
  { apply set_subseteq_size_eq; [|lia].
    intros w Hw. apply elem_of_intersection in Hw. apply elem_of_union. tauto. }
  apply leibniz_equiv. intros w. split; intros Hw.
  - assert (Hu : w ∈ X ∪ Y) by (apply elem_of_union; tauto).
    rewrite <- Heq in Hu. apply elem_of_intersection in Hu. tauto.
  - assert (Hu : w ∈ X ∪ Y) by (apply elem_of_union; tauto).
    rewrite <- Heq in Hu. apply elem_of_intersection in Hu. tauto.
Qed.

Lemma inter_both_eq (X Y : gset string) :
  size (X ∩ Y) = size X -> size (X ∩ Y) = size Y -> X = Y.
Proof.
  intros EX EY.
  assert (HX : X ∩ Y = X).
  { apply set_subseteq_size_eq; [|lia].
    intros w Hw. apply elem_of_intersection in Hw. tauto. }
  assert (HY : X ∩ Y = Y).
  { apply set_subseteq_size_eq; [|lia].
    intros w Hw. apply elem_of_intersection in Hw. tauto. }
  congruence.
Qed.

Lemma inter_self (X : gset string) : X ∩ X = X.
Proof. apply leibniz_equiv. intros w. rewrite elem_of_intersection. tauto. Qed.

Lemma union_self (X : gset string) : X ∪ X = X.
Proof. apply leibniz_equiv. intros w. rewrite elem_of_union. tauto. Qed.

(** [partial_match] is 1.0 exactly on equal, non-empty token sets. *)
Lemma partial_match_one (p e : string) (t : Q) :
  returns (partial_match (Some p) (Some e) t) 1
  <-> p <> "" /\ e <> "" /\ token_set p = token_set e /\ token_set e <> ∅.
Proof.
  split.
  - intros Hr.
    destruct (string_dec p "") as [->|Hp]; [exact (False_ind _ (not_returns_zero_one Hr))|].
    destruct (string_dec e "") as [->|He].
    { rewrite (partial_match_falsy (Some p) (Some "") t) in Hr by (right; reflexivity).
      exact (False_ind _ (not_returns_zero_one Hr)). }
    rewrite (partial_match_value p e t Hp He) in Hr.
    destruct (size (token_set e) =? 0)%nat eqn:E;
      [exact (False_ind _ (not_returns_zero_one Hr))|].
    apply Nat.eqb_neq in E. simpl in Hr.
    apply half_sum_one in Hr as [HJ HR];
      [| apply frac_le_1, size_inter_le_union | apply frac_le_1, size_inter_le_r].
    apply frac_eq_1 in HJ; [|apply size_union_pos, E].
    split; [exact Hp|]. split; [exact He|]. split; [apply inter_union_eq, HJ|].
    intros Hempty. apply E. rewrite Hempty. apply size_empty.
  - intros (Hp & He & Heq & Hne).
    rewrite (partial_match_value p e t Hp He), Heq, inter_self, union_self.
    assert (Hsz : size (token_set e) <> 0%nat).
    { intros E. apply Hne. apply leibniz_equiv, size_empty_iff. exact E. }
    destruct (size (token_set e) =? 0)%nat eqn:E; [apply Nat.eqb_eq in E; contradiction|].
    apply returns_Some. rewrite (frac_same _ Hsz). reflexivity.
Qed.

(** [list_overlap_score] is 1.0 exactly on equal normalised item sets. *)
Lemma list_overlap_one (p e : list string) :
  returns (list_overlap_score (Some p) (Some e)) 1
  <-> p <> [] /\ e <> [] /\ item_set p = item_set e.
Proof.
  split.
  - intros Hr.
    destruct e as [|y e]; [exact (False_ind _ (not_returns_zero_one Hr))|].
    destruct p as [|x p]; [exact (False_ind _ (not_returns_zero_one Hr))|].
    assert (Hp : x :: p <> []) by discriminate.
    assert (He : y :: e <> []) by discriminate.
    pose proof (list_overlap_value _ _ Hp He) as V. cbv zeta in V. rewrite V in Hr.
    destruct (Qeq_bool _ 0) eqn:E; [exact (False_ind _ (not_returns_zero_one Hr))|].
    apply Qeq_bool_neq in E. simpl in Hr.
    apply f1_one in Hr as [HP HR]; try apply frac_nonneg; try exact E;
      [| apply frac_le_1, size_inter_le_l | apply frac_le_1, size_inter_le_r].
    apply frac_eq_1 in HP; [|apply item_set_nonempty, Hp].
    apply frac_eq_1 in HR; [|apply item_set_nonempty, He].
    split; [exact Hp|]. split; [exact He|]. apply inter_both_eq; assumption.
  - intros (Hp & He & Heq).
    pose proof (list_overlap_value p e Hp He) as V. cbv zeta in V.
    rewrite V, Heq, inter_self. clear V.
    pose proof (frac_same _ (item_set_nonempty e He)) as F1.
    destruct (Qeq_bool _ 0) eqn:E.
    + apply Qeq_bool_eq in E. rewrite F1 in E. discriminate.
    + apply returns_Some. rewrite F1. reflexivity.
Qed.

(** [fashion_similarity] is 1.0 only on equal lowercased strings. *)
Lemma fashion_similarity_one (p e : string) :
  returns (fashion_similarity (Some p) (Some e)) 1 ->
  p <> "" /\ e <> "" /\ PyStr.lower p = PyStr.lower e.
Proof.
  intros Hr.
  destruct (string_dec p "") as [->|Hp]; [exact (False_ind _ (not_returns_zero_one Hr))|].
  destruct (string_dec e "") as [->|He].
  { rewrite (fashion_similarity_falsy (Some p) (Some "")) in Hr by (right; reflexivity).
    exact (False_ind _ (not_returns_zero_one Hr)). }
  split; [exact Hp|]. split; [exact He|].
  pose proof (fashion_similarity_value p e Hp He) as V. cbv zeta in V. rewrite V in Hr.
  destruct (String.eqb_spec (PyStr.lower p) (PyStr.lower e)) as [E|_]; [exact E|].
  exfalso. destruct (_ || _).
  - simpl in Hr. discriminate.
  - simpl in Hr. rewrite py_min_Q in Hr.
    pose proof (fashion_blend_bound _ _ _
                  (synonym_matches_bound (PyStr.lower p) (token_set p) (token_set e)))
      as [_ H1].
    pose proof (Q.le_min_l
                  (ratio (size (token_set p ∩ token_set e)) (size (token_set e)) * (7 # 10)
                   + ratio (fold_left (synonym_step (token_set p) (PyStr.lower p))
                                      (elements (token_set e)) 0%nat)
                           (size (token_set e)) * (3 # 10))
                  1) as Hm.
    rewrite Hr in Hm. lra.
Qed.

(** C2, as amended.  Each of [exact_match], [partial_match],
    [fashion_similarity] and [list_overlap_score] returns 0.0 when either
    input is empty or absent (as a rational and as a binary64 number).
    [exact_match] and [fashion_similarity] return
    1.0 only on a normalized exact match (case-insensitive,
    whitespace-trimmed); [partial_match] returns 1.0 exactly when the two
    token sets are equal and not empty; [list_overlap_score] returns 1.0
    exactly when both lists are not empty and the two normalised item sets
    are equal. *)
Theorem zero_and_one_scores :
  (forall (p e : option string) (t : Q),
     truthy_str p = None \/ truthy_str e = None ->
     returns (exact_match p e) 0
     /\ returns (partial_match p e t) 0
     /\ returns (fashion_similarity p e) 0)
  /\ (forall p e : option (list string),
        truthy_list p = None \/ truthy_list e = None ->
        returns (list_overlap_score p e) 0)
  /\ (forall (p e : option string) (t : spec_float),
        truthy_str p = None \/ truthy_str e = None ->
        exact_match p e = Some (py_lit (R:=spec_float) 0)
        /\ partial_match p e t = Some (py_lit 0)
        /\ fashion_similarity p e = Some (py_lit (R:=spec_float) 0))
  /\ (forall p e : option (list string),
        truthy_list p = None \/ truthy_list e = None ->
        list_overlap_score p e = Some (py_lit (R:=spec_float) 0))
  /\ (forall p e : string,
        returns (exact_match (Some p) (Some e)) 1 -> normalized_exact_match p e)
  /\ (forall p e : string,
        returns (fashion_similarity (Some p) (Some e)) 1 -> normalized_exact_match p e)
  /\ (forall (p e : string) (t : Q),
        returns (partial_match (Some p) (Some e) t) 1
        <-> p <> "" /\ e <> "" /\ token_set p = token_set e /\ token_set e <> ∅)
  /\ (forall p e : list string,
        returns (list_overlap_score (Some p) (Some e)) 1
        <-> p <> [] /\ e <> [] /\ item_set p = item_set e).
Proof.
  split; [|split; [|split; [|split; [|split; [|split; [|split]]]]]].
  - intros p e t Hf.
    rewrite (exact_match_falsy p e Hf), (partial_match_falsy p e t Hf),
      (fashion_similarity_falsy p e Hf).
    repeat split; reflexivity.
  - intros p e Hf. rewrite (list_overlap_falsy p e Hf). reflexivity.
  - intros p e t Hf.
    rewrite (exact_match_falsy p e Hf), (partial_match_falsy p e t Hf),
      (fashion_similarity_falsy p e Hf).
    repeat split; reflexivity.
  - intros p e Hf. apply (list_overlap_falsy p e Hf).
  - intros p e Hr. destruct (normalized_exact_match_dec p e) as [Hm|Hn]; [exact Hm|].
    rewrite (exact_match_miss (Some p) (Some e)) in Hr.
    + exact (False_ind _ (not_returns_zero_one Hr)).
    + intros a b [= <-] [= <-]. exact Hn.
  - intros p e Hr. apply fashion_similarity_one in Hr as (Hp & He & E).
    split; [|split; assumption].
    rewrite !lower_strip, E. reflexivity.
  - exact partial_match_one.
  - exact list_overlap_one.
Qed.

(** The general statement of C2 at an empty predicted string and at the
    example of equal token sets in a different order. *)
Lemma zero_and_one_scores_witness :
  (returns (exact_match (Some "") (Some "chic")) 0
   /\ returns (partial_match (Some "") (Some "chic") (1 # 2)) 0
   /\ returns (fashion_similarity (Some "") (Some "chic")) 0)
  /\ returns (partial_match (Some "dress red") (Some "red dress") (1 # 2)) 1.
Proof.
  split.
  - apply (proj1 zero_and_one_scores (Some "") (Some "chic") (1 # 2)).
    left. reflexivity.
  - apply (proj1 (proj2 (proj2 (proj2 (proj2 (proj2 (proj2 zero_and_one_scores))))))
             "dress red" "red dress" (1 # 2)).
    split; [discriminate|]. split; [discriminate|].
    split; [vm_compute; reflexivity | vm_compute; discriminate].
Defined.

(** C2, counterexample to the claim as stated: [partial_match] returns 1.0
    on "dress red" and "red dress", which are not a normalized exact match;
    and [list_overlap_score] returns 1.0 on the lists ["Zara", "Nike"] and
    ["nike", "zara"], which are not equal item by item once lowercased and
    trimmed. *)
Lemma partial_match_one_without_exact_match :
  returns (partial_match (Some "dress red") (Some "red dress") (1 # 2)) 1
  /\ ~ normalized_exact_match "dress red" "red dress"
  /\ partial_match (R:=spec_float) (Some "dress red") (Some "red dress") (py_lit (1 # 2))
     = Some (py_lit 1)
  /\ returns (list_overlap_score (Some ["Zara"; "Nike"]) (Some ["nike"; "zara"])) 1
  /\ ~ normalized_list_match ["Zara"; "Nike"] ["nike"; "zara"]
  /\ list_overlap_score (R:=spec_float) (Some ["Zara"; "Nike"]) (Some ["nike"; "zara"])
     = Some (py_lit 1).
Proof.
  split; [|split; [|split; [|split; [|split]]]].
  - vm_compute. reflexivity.
  - intros (E & _). vm_compute in E. discriminate.
  - vm_compute. reflexivity.
  - vm_compute. reflexivity.
  - intros (_ & _ & E). vm_compute in E. discriminate.
  - vm_compute. reflexivity.
Qed.

(** Two strings that differ only in surrounding whitespace are not always
    caught by the substring rule of [fashion_similarity]: " chic" against
    "chic " goes through the token overlap and gets 0.7. *)
Example fashion_similarity_padded :
  returns (fashion_similarity (Some " chic") (Some "chic ")) (7 # 10)
  /\ fashion_similarity (R:=spec_float) (Some " chic") (Some "chic ")
     = Some (py_lit (7 # 10)).
Proof. split; vm_compute; reflexivity. Qed.

(** * Properties of the evaluation scripts *)

(** ** The summary of an evaluation loop *)





(** ** Style classification *)




Example style_score_trailing_space :
  returns (StyleEval.score "Grunge/Rock " "grunge/rock") 1
  /\ returns (fashion_similarity (Some "Grunge/Rock ") (Some "grunge/rock")) (9 # 10).
Proof. split; vm_compute; reflexivity. Qed.






(** ** Trend detection *)



Example trend_final_score_examples :
  returns (TrendEval.final_score "Quiet Luxury" "quiet luxury") 1
  /\ returns (TrendEval.final_score "luxury, quiet" "quiet luxury") (17 # 20)
  /\ TrendEval.final_score (R:=spec_float) "Quiet Luxury" "quiet luxury"
     = Some (py_lit 1).
Proof. split; [|split]; vm_compute; reflexivity. Qed.

(** ** Fashion writing *)















(** ** Hashtag understanding *)











(** Two records of the knowledge base: equal ones score 1.0, and [#ootd]
    against [#ootw] earns 0 for the meaning, 1 for the category and 0.4
    for the purpose (the shared word "showcase"). *)
Example hashtag_score_examples :
  returns (HashtagEval.calculate_hashtag_score
             (HashtagEval.understand_hashtag "#OOTD" "") (HashtagEval.understand_hashtag "#ootd" "")) 1
  /\ returns (HashtagEval.calculate_hashtag_score
                (HashtagEval.understand_hashtag "#ootd" "")
                (HashtagEval.understand_hashtag "#ootw" "")) (14 # 30)
  /\ HashtagEval.calculate_hashtag_score (R:=spec_float)
       (HashtagEval.understand_hashtag "#ootd" "") (HashtagEval.understand_hashtag "#ootd" "")
     = Some (py_lit 1).
Proof.
  split; [|split].
  - vm_compute. reflexivity.
  - vm_compute. reflexivity.
  - vm_compute. reflexivity.
Qed.

(** ** Affiliate detection *)









(** A post announcing a partnership, scored against the answer
    [{"has_affiliate": true, "type": "brand_partnership"}]. *)
Example affiliate_score_partnership :
  AffiliateEval.detect_affiliate_content "So excited about this partnership with Zara!"
  = {| AffiliateEval.has_affiliate := false; AffiliateEval.platform := None;
       AffiliateEval.type_ := Some None; AffiliateEval.code := None;
       AffiliateEval.discount := None; AffiliateEval.disclosures := None;
       AffiliateEval.indicators := None |}
  /\ AffiliateEval.calculate_affiliate_score (R:=spec_float)
       (AffiliateEval.detect_affiliate_content "So excited about this partnership with Zara!")
       {| AffiliateEval.e_has_affiliate := Some true; AffiliateEval.e_platform := None;
          AffiliateEval.e_type := Some "brand_partnership"; AffiliateEval.e_code := None;
          AffiliateEval.e_discount := None; AffiliateEval.e_disclosures := None |}
     = Py.Raise Py.AttributeError.
Proof. split; vm_compute; reflexivity. Qed.









(** The same post, step by step: the code and the discount are found, the
    keyword "#ad" turns the type into "sponsored", and the score is
    (2 + 0 + 1 + 0.5 + 0.5) / 5.5. *)
Example affiliate_score_discount_post :
  AffiliateEval.detect_affiliate_content "Use code SUMMER20 for 20% off, link in bio #ad"
  = {| AffiliateEval.has_affiliate := true; AffiliateEval.platform := None;
       AffiliateEval.type_ := Some (Some "sponsored"); AffiliateEval.code := Some "SUMMER20";
       AffiliateEval.discount := Some "20%"; AffiliateEval.disclosures := Some ["#ad"];
       AffiliateEval.indicators := Some ["link in bio"] |}
  /\ returns (returned (AffiliateEval.calculate_affiliate_score
       (AffiliateEval.detect_affiliate_content "Use code SUMMER20 for 20% off, link in bio #ad")
       {| AffiliateEval.e_has_affiliate := Some true; AffiliateEval.e_platform := None;
          AffiliateEval.e_type := Some "discount_code"; AffiliateEval.e_code := Some "summer20";
          AffiliateEval.e_discount := Some "20%";
          AffiliateEval.e_disclosures := Some ["#ad"; "#sponsored"] |})) (8 # 11).
Proof. split; vm_compute; reflexivity. Qed.

(** ** Product extraction *)










(** The same answer, step by step: 0.7 for the brand (a substring), 1 for
    the boolean, nothing for the missing price. *)
Example extraction_score_example :
  returns (returned (ProductEval.calculate_extraction_score
    (<["brand" := ProductEval.PStr "Zara"]>
       (<["link_mentioned" := ProductEval.PBool true]> ∅))
    [("brand", ProductEval.EStr "zara man"); ("link_mentioned", ProductEval.EBool true);
     ("price", ProductEval.EStr "$49")])) (17 # 30).
Proof. vm_compute. reflexivity. Qed.
